(** * SecretAuction: the FHE reserve-price contract and its bidding page

    A shallow embedding of
    - the Solidity contract [SecretAuction] (constructor, [submitBid],
      [getMyResult], [hasUserBid], [getBidTimestamp]),
    - the demo-mode guide's [checkDemoMode] and [calculateMockResult],
    - the React page [AuctionPage] ([handleTryAgain], [handleSubmitBid],
      the countdown timer, [handleDecryptResult] and the render guards),
    followed by the properties proved about them. *)

From Stdlib Require Import ZArith String Ascii List Bool Lia QArith.
From stdpp Require Import base option list gmap strings pretty.
From Equations Require Import Equations.

Local Open Scope string_scope.
Local Open Scope Z_scope.

(** ** JavaScript values used by the page *)
Module JS.

(** [s.includes(sub)] *)
Fixpoint includes (s sub : string) : bool :=
  String.prefix sub s ||
  match s with
  | EmptyString => false
  | String _ s' => includes s' sub
  end.

(** [x || d] on a possibly undefined string: [undefined] and [''] are falsy. *)
Definition or_else (x : option string) (d : string) : string :=
  match x with
  | Some s => if decide (s = "") then d else s
  | None => d
  end.

(** [!s] on a string *)
Definition is_empty (s : string) : bool := bool_decide (s = "").

(** The numbers [parseFloat] and [parseInt] return. A finite double is a
    rational; the page only compares such a number with zero and hands it
    on to the relayer SDK. *)
Inductive number :=
| NaN
| Infinity (negative : bool)
| Finite (q : Q).

(** [x <= 0], false on [NaN] *)
Definition le_zero (x : number) : bool :=
  match x with
  | NaN => false
  | Infinity negative => negative
  | Finite q => Qle_bool q 0
  end.

(** [String(n)] for a non-negative integer below 2^53 *)
Definition String_of (n : N) : string := pretty n.

(** The values the page stores as a decrypted result: what the relayer
    SDK's answer holds under the requested handle. The SDK decrypts to a
    bigint, a boolean or a string; a handle the answer lacks reads as
    [undefined]. [null] is the empty result cell, not one of these. *)
Inductive value :=
| JUndefined
| JBoolean (b : bool)
| JNumber (x : number)
| JBigInt (n : Z)
| JString (s : string).

(** [v === 1]: strict equality with the number 1, which only a number
    meets; the bigint [1n] does not. *)
Definition is_number_one (v : value) : bool :=
  match v with
  | JNumber (Finite q) => Qeq_bool q 1
  | _ => false
  end.

Inductive nullish := Null | Undefined.

(** What a rejected call or a throwing call hands to [catch]: [null] or
    [undefined], or any other value, of which the page reads [message]
    only. The wallet, ethers and the relayer SDK reject with Error
    objects, whose message is a string; a value without one reads as
    [undefined]. *)
Inductive thrown :=
| ThrowNullish (n : nullish)
| ErrorValue (message : option string).

(** [new Error(message)] *)
Definition Error (message : string) : thrown := ErrorValue (Some message).

End JS.

(** ** The FHE library the contract calls

    [FHE.sol] and the relayer are external. The interface below lists the
    operations the contract and the page use together with their ideal
    functionality: every encrypted value stands for one cleartext and the
    operations act on cleartexts as their names say. *)
Module FHE.

Abbreviation address := N (only parsing).
Abbreviation bytes32 := N (only parsing).
Abbreviation bytes := (list N) (only parsing).

Definition uint32 (v : Z) : Z := v mod 2 ^ 32.

Class Scheme := {
  euint32 : Type;
  ebool : Type;
  externalEuint32 : Type;
  (* contract side *)
  asEuint32 : Z -> euint32;
  fromExternal : address -> address -> externalEuint32 -> bytes -> option euint32;
  gt : euint32 -> euint32 -> ebool;
  eq : euint32 -> euint32 -> ebool;
  or : ebool -> ebool -> ebool;
  select : ebool -> euint32 -> euint32 -> euint32;
  toBytes32 : euint32 -> bytes32;
  (* the uninitialised handle a mapping returns for a missing key *)
  euint32_zero : euint32;
  (* client side: createEncryptedInput(contract, user).add32(v).encrypt() *)
  encrypt32 : address -> address -> Z -> externalEuint32 * bytes;
  (* the cleartext an encrypted value or a handle stands for *)
  clear32 : euint32 -> Z;
  clearb : ebool -> bool;
  clear_handle : bytes32 -> Z
}.

(** The ideal functionality: the operations act on cleartexts as their names
    say, and an input encrypted for a contract and a user is accepted from
    that user by that contract. *)
Class Lawful (F : Scheme) : Prop := {
  clear_asEuint32 : forall v, clear32 (asEuint32 v) = uint32 v;
  clear_gt : forall a b, clearb (gt a b) = (clear32 b <? clear32 a);
  clear_eq : forall a b, clearb (eq a b) = (clear32 a =? clear32 b);
  clear_or : forall a b, clearb (or a b) = clearb a || clearb b;
  clear_select : forall c a b,
    clear32 (select c a b) = if clearb c then clear32 a else clear32 b;
  clear_toBytes32 : forall e, clear_handle (toBytes32 e) = clear32 e;
  clear_fromExternal : forall this user v,
    0 <= v < 2 ^ 32 ->
    exists e,
      fromExternal this user (encrypt32 this user v).1 (encrypt32 this user v).2
        = Some e /\ clear32 e = v
}.

(** The scheme in which a ciphertext is its cleartext: it lets the contract
    run on numbers. *)
Definition cleartext : Scheme := {|
  euint32 := Z;
  ebool := bool;
  externalEuint32 := Z;
  asEuint32 v := uint32 v;
  fromExternal _ _ h _ := Some (uint32 h);
  gt a b := uint32 b <? uint32 a;
  eq a b := uint32 a =? uint32 b;
  or a b := a || b;
  select c a b := if c then a else b;
  toBytes32 e := Z.to_N (uint32 e);
  euint32_zero := 0;
  encrypt32 _ _ v := (v, []);
  clear32 e := uint32 e;
  clearb b := b;
  clear_handle h := uint32 (Z.of_N h)
|}.

End FHE.

(** ** The contract [SecretAuction] *)
Module SecretAuction.
Import FHE.

Section Contract.
Context {F : Scheme}.

(** [address(this)] *)
Variable this : address.

Inductive Event :=
| BidSubmitted (bidder : address) (timestamp : Z).

(** Storage, together with the part of the chain the contract writes
    through [FHE.allow]/[FHE.allowThis] (the access-control list) and the
    event log. A Solidity mapping is total: a missing key reads as the
    zero value of its type. *)
Record State := mkState {
  reservePrice : euint32;
  bidResults : gmap address euint32;
  hasBid : gmap address bool;
  bidTimestamp : gmap address Z;
  acl : list (bytes32 * address);
  emitted : list Event
}.

Definition bidResults_at (s : State) (a : address) : euint32 :=
  default euint32_zero (bidResults s !! a).
Definition hasBid_at (s : State) (a : address) : bool :=
  default false (hasBid s !! a).
Definition bidTimestamp_at (s : State) (a : address) : Z :=
  default 0 (bidTimestamp s !! a).

(** [msg.sender] and [block.timestamp] of a call *)
Record Msg := mkMsg { sender : address; timestamp : Z }.

(** A call either returns with a new state or reverts with a reason;
    a reverted call leaves the state it started from. *)
Inductive Outcome (A : Type) :=
| Returned (a : A) (s : State)
| Reverted (reason : string).
Arguments Returned {A} a s.
Arguments Reverted {A} reason.

Definition Tx (A : Type) := State -> Outcome A.

Definition ret {A} (a : A) : Tx A := fun s => Returned a s.
Definition bind {A B} (m : Tx A) (k : A -> Tx B) : Tx B :=
  fun s => match m s with
           | Returned a s' => k a s'
           | Reverted r => Reverted r
           end.
Definition gets {A} (f : State -> A) : Tx A := fun s => Returned (f s) s.
Definition modify (f : State -> State) : Tx unit := fun s => Returned tt (f s).
Definition revert {A} (reason : string) : Tx A := fun _ => Reverted reason.
Definition require (cond : bool) (reason : string) : Tx unit :=
  if cond then ret tt else revert reason.

Notation "x <- m ;; k" := (bind m (fun x => k))
  (at level 100, m at next level, right associativity).
Notation "m ;;; k" := (bind m (fun _ => k))
  (at level 100, right associativity).

Definition execute {A} (tx : Tx A) (s : State) : (string + A) * State :=
  match tx s with
  | Returned a s' => (inr a, s')
  | Reverted r => (inl r, s)
  end.

Definition set_bidResult (a : address) (r : euint32) (s : State) : State :=
  mkState (reservePrice s) (<[a := r]> (bidResults s)) (hasBid s)
          (bidTimestamp s) (acl s) (emitted s).
Definition set_hasBid (a : address) (b : bool) (s : State) : State :=
  mkState (reservePrice s) (bidResults s) (<[a := b]> (hasBid s))
          (bidTimestamp s) (acl s) (emitted s).
Definition set_bidTimestamp (a : address) (t : Z) (s : State) : State :=
  mkState (reservePrice s) (bidResults s) (hasBid s)
          (<[a := t]> (bidTimestamp s)) (acl s) (emitted s).
(** [FHE.allow(value, account)] *)
Definition allow (value : euint32) (account : address) (s : State) : State :=
  mkState (reservePrice s) (bidResults s) (hasBid s) (bidTimestamp s)
          (acl s ++ [(toBytes32 value, account)]) (emitted s).
Definition emit (e : Event) (s : State) : State :=
  mkState (reservePrice s) (bidResults s) (hasBid s) (bidTimestamp s)
          (acl s) (emitted s ++ [e]).

Definition constructor : State :=
  let reservePrice := asEuint32 (uint32 1000) in
  allow reservePrice this
    (mkState reservePrice ∅ ∅ ∅ [] []).

Definition submitBid (msg : Msg) (encryptedBid : externalEuint32)
    (proof : bytes) : Tx unit :=
  (* Step 1 *)
  bid <- (match fromExternal this (sender msg) encryptedBid proof with
          | Some e => ret e
          | None => revert ""
          end) ;;
  (* Step 2 *)
  reserve <- gets reservePrice ;;
  let isGreater := gt bid reserve in
  let isEqual := eq bid reserve in
  let isSuccess := or isGreater isEqual in
  (* Step 3 *)
  let one := asEuint32 (uint32 1) in
  let zero := asEuint32 (uint32 0) in
  let result := select isSuccess one zero in
  (* Step 4 *)
  modify (set_bidResult (sender msg) result) ;;;
  modify (set_hasBid (sender msg) true) ;;;
  modify (set_bidTimestamp (sender msg) (timestamp msg)) ;;;
  (* Step 5 *)
  modify (allow result this) ;;;
  modify (allow result (sender msg)) ;;;
  modify (emit (BidSubmitted (sender msg) (timestamp msg))).

Definition getMyResult (msg : Msg) : Tx bytes32 :=
  has <- gets (fun s => hasBid_at s (sender msg)) ;;
  require has "No bid submitted" ;;;
  r <- gets (fun s => bidResults_at s (sender msg)) ;;
  ret (toBytes32 r).

Definition hasUserBid (user : address) : Tx bool :=
  gets (fun s => hasBid_at s user).

Definition getBidTimestamp (user : address) : Tx Z :=
  has <- gets (fun s => hasBid_at s user) ;;
  require has "No bid submitted" ;;;
  gets (fun s => bidTimestamp_at s user).

(** The relayer's user decryption in the ideal functionality: the
    cleartext behind a handle, for a user the access-control list allows
    on a handle the contract is allowed on. *)
Definition userDecrypt (s : State) (user : address) (h : bytes32) : option Z :=
  if bool_decide ((h, this) ∈ acl s) && bool_decide ((h, user) ∈ acl s)
  then Some (clear_handle h)
  else None.

(** The real path of a bid of [v]: encrypt it for the contract and the
    bidder, submit it, fetch the result handle, decrypt it. [None] when
    a step fails. *)
Definition realPath (s : State) (msg : Msg) (v : Z) : option Z :=
  let encryptedInput := encrypt32 this (sender msg) v in
  match submitBid msg encryptedInput.1 encryptedInput.2 s with
  | Returned _ s1 =>
    match getMyResult msg s1 with
    | Returned handle s2 => userDecrypt s2 (sender msg) handle
    | Reverted _ => None
    end
  | Reverted _ => None
  end.

(** The states the deployed contract can be in. The view functions do
    not change the state. *)
Inductive reachable : State -> Prop :=
| reach_constructor : reachable constructor
| reach_submitBid s msg encryptedBid proof s' :
    reachable s ->
    submitBid msg encryptedBid proof s = Returned tt s' ->
    reachable s'.

(** [a] has a [BidSubmitted] event in the log. *)
Definition submitted (s : State) (a : address) : Prop :=
  exists t, BidSubmitted a t ∈ emitted s.

End Contract.

Arguments Returned {F A} a s.
Arguments Reverted {F A} reason.
End SecretAuction.

(** ** The demo-mode guide: mode detection and the mock result *)
Module DemoMode.

(** What [checkDemoMode] reads: whether [window] exists, the URL's query
    parameters, [localStorage] and [process.env]. *)
Record Browser := mkBrowser {
  hasWindow : bool;
  urlParams : gmap string string;
  localStorage : gmap string string;
  processEnv : gmap string string
}.

Definition is_str (x : option string) (s : string) : bool :=
  bool_decide (x = Some s).

Definition checkDemoMode (b : Browser) : bool :=
  if negb (hasWindow b) then false
  else if is_str (urlParams b !! "demo") "true" then true
  else if is_str (localStorage b !! "DEMO_MODE") "true" then true
  else if is_str (processEnv b !! "NODE_ENV") "development"
          && is_str (processEnv b !! "NEXT_PUBLIC_DEMO_MODE") "true" then true
  else false.

Definition SECRET_NUMBER : N := 888.

(** [calculateMockResult(savedValue: string | null): number] *)
Definition calculateMockResult (savedValue : option string) : Z :=
  if bool_decide (savedValue = Some (JS.String_of SECRET_NUMBER)) then 1 else 0.

Definition lastGuess_key (userAddress : string) : string :=
  "lastGuess_" +:+ userAddress.

(** [localStorage.setItem(`lastGuess_${userAddress}`, plaintextValue)] *)
Definition savePlaintext (userAddress plaintextValue : string)
    (ls : gmap string string) : gmap string string :=
  <[lastGuess_key userAddress := plaintextValue]> ls.

(** The mock branch of the guide's [handleDecrypt]: read the saved value,
    compute the mock result, remove the record. *)
Definition mockFromStorage (userAddress : string) (ls : gmap string string)
    : Z * gmap string string :=
  let savedValue := ls !! lastGuess_key userAddress in
  let mockResult := calculateMockResult savedValue in
  (mockResult, delete (lastGuess_key userAddress) ls).

(** The fallback outcome for a bid of [v]: the mock result computed from
    the plaintext a demo-mode submit saved for it. *)
Definition fallback (userAddress : string) (v : N) : Z :=
  (mockFromStorage userAddress
     (savePlaintext userAddress (JS.String_of v) ∅)).1.

End DemoMode.

(** ** The page [AuctionPage] *)
Module AuctionPage.
Import JS.

(** *** Values exchanged with the relayer SDK, the wallet and the contract *)

Record Keypair := mkKeypair { publicKey : string; privateKey : string }.

(** [encryptedInput.handles[0]] and [encryptedInput.inputProof] *)
Record EncryptedInput := mkEncryptedInput { handle0 : N; inputProof : list N }.

(** [eip712.domain], [eip712.types] (an object keyed by type name) and
    [eip712.message] *)
Record EIP712 := mkEIP712 {
  domain : string;
  types : gmap string string;
  message : string
}.

(** The arguments of [fhevmInstance.userDecrypt] *)
Record DecryptRequest := mkDecryptRequest {
  handleContractPairs : list (N * string);
  reqPrivateKey : string;
  reqPublicKey : string;
  signature : string;
  contractAddresses : list string;
  userAddress : string;
  startTimeStamp : string;
  durationDays : string
}.

(** A call returns (an awaited one resolves) with a value, or throws
    (rejects with) one. *)
Inductive Res (A : Type) :=
| Ok (a : A)
| Throw (e : thrown).
Arguments Ok {A} a.
Arguments Throw {A} e.

(** The calls that leave the page, in the order they are made *)
Inductive Event :=
| EvEncrypt (contract user : string) (value : number)
| EvGetSigner
| EvSubmitBid (handle : N) (proof : list N)
| EvTxWait (hash : string)
| EvSetInterval (ms : Z)
| EvGetMyResult
| EvGenerateKeypair
| EvCreateEIP712 (publicKey : string) (contractAddresses : list string)
    (startTimeStamp durationDays : string)
| EvSignTypedData (domain : string) (types : gmap string string) (message : string)
| EvUserDecrypt (req : DecryptRequest)
| EvSetTimeout (ms : Z).

(** What surrounds the page. The hooks' values are fixed while a handler
    runs. The answer of an external call may depend on how many calls were
    made before it; [generateKeypair] answers by how many keypairs were
    generated before. *)
Record Env := mkEnv {
  (* the hooks: an SDK instance, a wallet client, the account (a 0x string
     or undefined) *)
  fhevmInstance : bool;
  walletClient : bool;
  address : option string;
  (* process.env.NEXT_PUBLIC_CONTRACT_ADDRESS || '' *)
  CONTRACT_ADDRESS : string;
  (* what the guide's checkDemoMode reads; no handler of the page reads it *)
  browser : DemoMode.Browser;
  (* built-ins *)
  parseFloat : string -> number;
  parseInt : string -> number;
  Date_now : nat -> Z;
  (* the message of the TypeError the engine throws when [message] is read
     of null or of undefined *)
  typeErrorMessage : nullish -> string;
  (* createEncryptedInput(contract, user), add32(value), encrypt() *)
  encrypt : nat -> string -> string -> number -> Res EncryptedInput;
  (* provider.getSigner() *)
  getSigner : nat -> Res unit;
  (* contract.submitBid(handle, proof), resolving with tx.hash; tx.wait() *)
  contract_submitBid : nat -> N -> list N -> Res string;
  tx_wait : nat -> string -> Res unit;
  (* contract.getMyResult() *)
  contract_getMyResult : nat -> Res N;
  (* fhevmInstance.generateKeypair(), createEIP712(..), signer.signTypedData(..) *)
  generateKeypair : nat -> Res Keypair;
  createEIP712 : nat -> string -> list string -> string -> string -> Res EIP712;
  signTypedData : nat -> string -> gmap string string -> string -> Res string;
  (* fhevmInstance.userDecrypt(..): the value the resolved object holds for
     the requested handle *)
  userDecrypt : nat -> DecryptRequest -> Res value
}.

(** *** Bid state (the [useState] cells) *)
Record PageState := mkPage {
  bidAmount : string;
  isSubmitting : bool;
  isDecrypting : bool;
  hasBidSubmitted : bool;
  canDecrypt : bool;
  countdown : Z;
  (* null, or the value [setResult] stored *)
  result : option value;
  error : option string
}.

Definition initialPage : PageState :=
  mkPage "" false false false false 0 None None.

Definition setBidAmount (v : string) (p : PageState) : PageState :=
  mkPage v (isSubmitting p) (isDecrypting p) (hasBidSubmitted p)
         (canDecrypt p) (countdown p) (result p) (error p).
Definition setIsSubmitting (v : bool) (p : PageState) : PageState :=
  mkPage (bidAmount p) v (isDecrypting p) (hasBidSubmitted p)
         (canDecrypt p) (countdown p) (result p) (error p).
Definition setIsDecrypting (v : bool) (p : PageState) : PageState :=
  mkPage (bidAmount p) (isSubmitting p) v (hasBidSubmitted p)
         (canDecrypt p) (countdown p) (result p) (error p).
Definition setHasBidSubmitted (v : bool) (p : PageState) : PageState :=
  mkPage (bidAmount p) (isSubmitting p) (isDecrypting p) v
         (canDecrypt p) (countdown p) (result p) (error p).
Definition setCanDecrypt (v : bool) (p : PageState) : PageState :=
  mkPage (bidAmount p) (isSubmitting p) (isDecrypting p) (hasBidSubmitted p)
         v (countdown p) (result p) (error p).
Definition setCountdown (v : Z) (p : PageState) : PageState :=
  mkPage (bidAmount p) (isSubmitting p) (isDecrypting p) (hasBidSubmitted p)
         (canDecrypt p) v (result p) (error p).
Definition setResult (v : option value) (p : PageState) : PageState :=
  mkPage (bidAmount p) (isSubmitting p) (isDecrypting p) (hasBidSubmitted p)
         (canDecrypt p) (countdown p) v (error p).
Definition setError (v : option string) (p : PageState) : PageState :=
  mkPage (bidAmount p) (isSubmitting p) (isDecrypting p) (hasBidSubmitted p)
         (canDecrypt p) (countdown p) (result p) v.

(** [handleTryAgain] *)
Definition handleTryAgain (p : PageState) : PageState :=
  setError None
    (setResult None
      (setCountdown 0
        (setCanDecrypt false
          (setHasBidSubmitted false
            (setBidAmount "" p))))).

(** *** The world a handler runs in: the bid state, the calls made so far,
    the number of keypairs generated so far and the number of running
    countdown intervals. *)
Record World := mkWorld {
  page : PageState;
  log : list Event;
  keygenCalls : nat;
  timers : nat
}.

Definition initialWorld : World := mkWorld initialPage [] 0 0.

Definition M (A : Type) := World -> Res A * World.

Definition ret {A} (a : A) : M A := fun w => (Ok a, w).
Definition bind {A B} (m : M A) (k : A -> M B) : M B :=
  fun w => match m w with
           | (Ok a, w') => k a w'
           | (Throw e, w') => (Throw e, w')
           end.
Definition throw {A} (e : thrown) : M A := fun w => (Throw e, w).

Notation "x <- m ;; k" := (bind m (fun x => k))
  (at level 100, m at next level, right associativity).
Notation "m ;;; k" := (bind m (fun _ => k))
  (at level 100, right associativity).

(** [try { body } catch (e) { handler e } finally { fin }]: the handler
    may throw itself, and [fin] runs all the same; no [finally] block of
    the page throws. *)
Definition try_catch_finally {A} (body : M A) (handler : thrown -> M A)
    (fin : World -> World) : M A :=
  fun w => match body w with
           | (Ok a, w1) => (Ok a, fin w1)
           | (Throw e, w1) => let (r, w2) := handler e w1 in (r, fin w2)
           end.

Definition update (f : PageState -> PageState) : M unit :=
  fun w => (Ok tt, mkWorld (f (page w)) (log w) (keygenCalls w) (timers w)).
Definition on_page (f : PageState -> PageState) (w : World) : World :=
  mkWorld (f (page w)) (log w) (keygenCalls w) (timers w).
Definition read {A} (f : PageState -> A) : M A := fun w => (Ok (f (page w)), w).

(** An external call: it is logged, and answered by the environment
    according to the number of calls made before it. *)
Definition call {A} (ev : Event) (answer : nat -> Res A) : M A :=
  fun w => (answer (length (log w)),
            mkWorld (page w) (log w ++ [ev]) (keygenCalls w) (timers w)).

Definition call_generateKeypair (env : Env) : M Keypair :=
  fun w => (generateKeypair env (keygenCalls w),
            mkWorld (page w) (log w ++ [EvGenerateKeypair])
                    (S (keygenCalls w)) (timers w)).

(** [setInterval(callback, ms)] *)
Definition startInterval (ms : Z) : M unit :=
  fun w => (Ok tt, mkWorld (page w) (log w ++ [EvSetInterval ms])
                           (keygenCalls w) (S (timers w))).

(** [Date.now()] *)
Definition now (env : Env) : M Z :=
  fun w => (Ok (Date_now env (length (log w))), w).

(** [e.message] in a [catch] block: the message of the value caught, or
    the engine's TypeError when that value is null or undefined. *)
Definition message_of (env : Env) (e : thrown) : M (option string) :=
  match e with
  | ThrowNullish n => throw (Error (typeErrorMessage env n))
  | ErrorValue message => ret message
  end.

(** [s.replace(pat, rep)]: the first occurrence only *)
Fixpoint replace (pat rep s : string) : string :=
  if String.prefix pat s
  then rep +:+ String.substring (String.length pat)
                 (String.length s - String.length pat) s
  else match s with
       | EmptyString => EmptyString
       | String c s' => String c (replace pat rep s')
       end.

(** The world a handler ended in extends the log it started from. *)
Ltac close_log :=
  eexists; rewrite <- ?app_assoc;
  split; [reflexivity|]; split; [reflexivity|]; split; [reflexivity|].

(** *** [handleSubmitBid] *)
Definition handleSubmitBid (env : Env) : M unit :=
  match fhevmInstance env && walletClient env, address env with
  | true, Some address =>
    bidAmount <- read bidAmount ;;
    if is_empty bidAmount || le_zero (parseFloat env bidAmount) then
      update (setError (Some "Please enter a valid bid amount"))
    else if is_empty (CONTRACT_ADDRESS env) then
      update (setError (Some "Contract not deployed yet. Please wait."))
    else
      update (setIsSubmitting true) ;;;
      update (setError None) ;;;
      try_catch_finally
        ((* Step 1: Encrypt bid amount *)
         encryptedInput <- call (EvEncrypt (CONTRACT_ADDRESS env) address
                                           (parseInt env bidAmount))
                                (fun t => encrypt env t (CONTRACT_ADDRESS env)
                                            address (parseInt env bidAmount)) ;;
         let handle := handle0 encryptedInput in
         let proof := inputProof encryptedInput in
         (* Step 2: Submit to contract *)
         call EvGetSigner (getSigner env) ;;;
         tx <- call (EvSubmitBid handle proof)
                    (fun t => contract_submitBid env t handle proof) ;;
         call (EvTxWait tx) (fun t => tx_wait env t tx) ;;;
         update (setHasBidSubmitted true) ;;;
         update (setBidAmount "") ;;;
         (* Step 3: Start countdown for permission sync *)
         update (setCountdown 10) ;;;
         startInterval 1000)
        (fun e =>
           message <- message_of env e ;;
           update (setError (Some (or_else message "Failed to submit bid"))))
        (on_page (setIsSubmitting false))
  | _, _ => update (setError (Some "Please connect your wallet first"))
  end.

(** The interval's callback: [setCountdown(prev => ...)], which clears the
    interval and allows decryption once [prev <= 1]. *)
Definition countdownTick (w : World) : World :=
  let prev := countdown (page w) in
  if prev <=? 1
  then mkWorld (setCountdown 0 (setCanDecrypt true (page w)))
               (log w) (keygenCalls w) (Nat.pred (timers w))
  else on_page (setCountdown (prev - 1)) w.

(** *** [handleDecryptResult] *)

(** The body of the [try] block: one decryption attempt. *)
Definition decryptAttempt (env : Env) (address : string) : M unit :=
  call EvGetSigner (getSigner env) ;;;
  (* Step 1: Get encrypted result handle *)
  encryptedHandle <- call EvGetMyResult (contract_getMyResult env) ;;
  (* Step 2: Generate keypair *)
  keypair <- call_generateKeypair env ;;
  (* Step 3: Prepare decrypt parameters *)
  let handleContractPairs := [(encryptedHandle, CONTRACT_ADDRESS env)] in
  ms <- now env ;;
  let startTimeStamp := pretty (ms / 1000) in
  let durationDays := "10" in
  let contractAddresses := [CONTRACT_ADDRESS env] in
  (* Step 4: Create EIP-712 signature *)
  eip712 <- call (EvCreateEIP712 (publicKey keypair) contractAddresses
                                 startTimeStamp durationDays)
                 (fun t => createEIP712 env t (publicKey keypair)
                             contractAddresses startTimeStamp durationDays) ;;
  let typesWithoutDomain := delete "EIP712Domain" (types eip712) in
  signature <- call (EvSignTypedData (domain eip712) typesWithoutDomain
                                     (message eip712))
                    (fun t => signTypedData env t (domain eip712)
                                typesWithoutDomain (message eip712)) ;;
  (* Step 5: Decrypt result *)
  let req := mkDecryptRequest handleContractPairs (privateKey keypair)
               (publicKey keypair) (replace "0x" "" signature)
               contractAddresses address startTimeStamp durationDays in
  decryptedValue <- call (EvUserDecrypt req) (fun t => userDecrypt env t req) ;;
  update (setResult (Some decryptedValue)) ;;;
  update (setCanDecrypt false).

(** [e.message?.includes('500')] *)
Definition transient (e : option string) : bool :=
  match e with
  | Some m => includes m "500"
  | None => false
  end.

(** [e.message?.includes('500') && retryCount < 3] *)
Definition is_retryable (e : option string) (retryCount : nat) : bool :=
  transient e && (retryCount <? 3)%nat.

Definition retrying_message (retryCount : nat) : string :=
  "Retrying... (" +:+ pretty (retryCount + 1)%nat +:+ "/3)".

(** The recursion ends because a retry needs [retryCount < 3].

    The promise of the recursive call is returned without being awaited, so
    the caller's [finally] runs once the callee has reached its first
    [await], not after the callee has finished. That block only clears
    [isDecrypting], which the callee's own [finally] clears last as well, and
    no call looks at the bid state: the calls a run makes and the world it
    ends in are the ones computed here. What differs is [isDecrypting] while
    a retry is in flight (already false). *)
Equations? handleDecryptResult (env : Env) (retryCount : nat) (w : World)
    : Res unit * World by wf (3 - retryCount)%nat lt :=
  handleDecryptResult env retryCount w :=
    match fhevmInstance env && walletClient env, address env with
    | true, Some address =>
      (update (setIsDecrypting true) ;;;
       update (setError None) ;;;
       try_catch_finally
         (decryptAttempt env address)
         (fun e =>
            message <- message_of env e ;;
            fun w1 =>
              match Sumbool.sumbool_of_bool
                      (is_retryable message retryCount) with
              | left _ =>
                (* Auto-retry on 500 error (permission sync issue) *)
                let waitTime := (Z.of_nat retryCount + 1) * 10 in
                (update (setError (Some (retrying_message retryCount))) ;;;
                 call (EvSetTimeout (waitTime * 1000)) (fun _ => Ok tt) ;;;
                 (fun w2 => handleDecryptResult env (retryCount + 1)%nat w2))
                  w1
              | right _ =>
                update (setError
                          (Some (or_else message "Failed to decrypt result")))
                       w1
              end)
         (on_page (setIsDecrypting false))) w
    | _, _ => update (setError (Some "Please connect your wallet first")) w
    end.
Proof.
  match goal with
  | H : is_retryable _ _ = true |- _ =>
    unfold is_retryable in H; apply andb_prop in H as [_ Hlt]
  end.
  apply Nat.ltb_lt in Hlt. lia.
Qed.

(** *** What the main interface renders *)

(** [!hasBidSubmitted && ...]: the bid form *)
Definition bidFormVisible (p : PageState) : bool := negb (hasBidSubmitted p).

(** The input is [disabled={isSubmitting}]. *)
Definition bidInputEnabled (p : PageState) : bool :=
  bidFormVisible p && negb (isSubmitting p).

(** The submit button is [disabled={isSubmitting || !bidAmount}]. *)
Definition submitEnabled (p : PageState) : bool :=
  bidFormVisible p && negb (isSubmitting p || is_empty (bidAmount p)).

(** [hasBidSubmitted && countdown > 0 && ...] *)
Definition countdownVisible (p : PageState) : bool :=
  hasBidSubmitted p && (0 <? countdown p).

(** [canDecrypt && result === null && ...], button [disabled={isDecrypting}] *)
Definition decryptVisible (p : PageState) : bool :=
  canDecrypt p && bool_decide (result p = None).
Definition decryptEnabled (p : PageState) : bool :=
  decryptVisible p && negb (isDecrypting p).

(** [result !== null && ...]: the result with its Try Again button *)
Definition resultVisible (p : PageState) : bool :=
  bool_decide (result p <> None).
Definition tryAgainVisible (p : PageState) : bool := resultVisible p.

Inductive BidOutcome := Won | Lost.

(** [result === 1 ? (You Won) : (Bid Too Low)], on the value as stored *)
Definition interpret (result : value) : BidOutcome :=
  if is_number_one result then Won else Lost.

Definition shownOutcome (p : PageState) : option BidOutcome :=
  interpret <$> result p.

(** *** The page as a machine driven by the user and the interval *)
Inductive Action :=
| TypeBid (value : string)
| ClickSubmit
| IntervalFires
| ClickDecrypt
| ClickTryAgain.

(** An action has an effect only where the page renders its control
    enabled; an interval fires only while one is running. A click is taken
    together with the whole run of its handler, up to the point where the
    handler has settled: what the page renders while a handler awaits a
    call, and a click made in the meantime, are not actions of this
    machine. *)
Definition step (env : Env) (a : Action) (w : World) : World :=
  match a with
  | TypeBid value =>
    if bidInputEnabled (page w) then on_page (setBidAmount value) w else w
  | ClickSubmit =>
    if submitEnabled (page w) then (handleSubmitBid env w).2 else w
  | IntervalFires =>
    match timers w with
    | O => w
    | S _ => countdownTick w
    end
  | ClickDecrypt =>
    if decryptEnabled (page w) then (handleDecryptResult env 0 w).2 else w
  | ClickTryAgain =>
    if tryAgainVisible (page w) then on_page handleTryAgain w else w
  end.

Definition run (env : Env) (actions : list Action) (w : World) : World :=
  fold_left (fun w a => step env a w) actions w.

(** *** The lifecycle states read off the bid state

    The page keeps no state variable of its own for the lifecycle; these
    predicates say which bid states stand for which lifecycle state. The
    last message ([error]) and the text in the input ([bidAmount]) do not
    count towards being idle. *)
Definition busy (p : PageState) : bool := isSubmitting p || isDecrypting p.

Definition idle (p : PageState) : bool :=
  negb (busy p) && negb (hasBidSubmitted p) && negb (canDecrypt p)
  && (countdown p =? 0) && bool_decide (result p = None).

(** A result is shown. *)
Definition resolved (p : PageState) : bool :=
  negb (busy p) && bool_decide (result p <> None).

(** A handler ended with an error and no result. *)
Definition failed (p : PageState) : bool :=
  negb (busy p) && bool_decide (result p = None)
  && bool_decide (error p <> None).

Definition terminal (p : PageState) : bool := resolved p || failed p.

(** *** Reading the log *)

(** The keypairs handed to [userDecrypt], in order *)
Definition used_key (ev : Event) : option Keypair :=
  match ev with
  | EvUserDecrypt req => Some (mkKeypair (reqPublicKey req) (reqPrivateKey req))
  | _ => None
  end.
Definition used_keys (l : list Event) : list Keypair := omap used_key l.

(** The keypairs the first [n] calls of [generateKeypair] returned *)
Definition ok_value {A} (r : Res A) : option A :=
  match r with
  | Ok a => Some a
  | Throw _ => None
  end.
Definition generated_keys (env : Env) (n : nat) : list Keypair :=
  omap (fun i => ok_value (generateKeypair env i)) (seq 0 n).

(** The number of calls of [userDecrypt]: the real decryption attempts
    that reached the relayer *)
Definition decrypt_calls (l : list Event) : nat := length (used_keys l).

(** The number of calls of [provider.getSigner()]. Every decryption attempt
    starts with one, so among the calls of a decryption run this is the
    number of attempts. *)
Definition signer_call (ev : Event) : option unit :=
  match ev with
  | EvGetSigner => Some tt
  | _ => None
  end.
Definition signer_calls (l : list Event) : nat := length (omap signer_call l).

(** The arguments of the ledger's submit operation *)
Definition ledger_submit (ev : Event) : option (N * list N) :=
  match ev with
  | EvSubmitBid handle proof => Some (handle, proof)
  | _ => None
  end.
Definition ledger_submits (l : list Event) : list (N * list N) :=
  omap ledger_submit l.

(** *** Notions the properties are stated with *)
Local Open Scope list_scope.

(** The wallet, the SDK instance and the account are there. *)
Definition connected (env : Env) : bool :=
  fhevmInstance env && walletClient env && bool_decide (address env <> None).

(** The world in which the attempt of a run starts *)
Definition attemptStart (w : World) : World :=
  on_page (setError None) (on_page (setIsDecrypting true) w).

(** The world after a failed attempt has set the retry message and slept *)
Definition retryStart (retryCount : nat) (w1 : World) : World :=
  mkWorld (setError (Some (retrying_message retryCount)) (page w1))
          (log w1 ++ [EvSetTimeout ((Z.of_nat retryCount + 1) * 10 * 1000)])
          (keygenCalls w1) (timers w1).

(** The world in which a run that gives up ends *)
Definition giveUp (e : option string) (w1 : World) : World :=
  on_page (setIsDecrypting false)
    (on_page (setError (Some (or_else e "Failed to decrypt result"))) w1).

(** One run of a handler seen from outside.

    [grows env n w w']: from [w] to [w'] the log was extended by calls of
    which none is a ledger submit, at most [n] start an attempt and at most
    [n] are user decryptions; every keypair handed to a user decryption was
    generated in between, in the same order; intervals and [hasBidSubmitted]
    are as before. *)
Definition grows (env : Env) (n : nat) (w w' : World) : Prop :=
  exists evs ks,
    log w' = log w ++ evs /\
    timers w' = timers w /\
    hasBidSubmitted (page w') = hasBidSubmitted (page w) /\
    ledger_submits evs = [] /\
    (signer_calls evs <= n)%nat /\
    (decrypt_calls evs <= n)%nat /\
    used_keys evs `sublist_of` ks /\
    generated_keys env (keygenCalls w') = generated_keys env (keygenCalls w) ++ ks.

(** No two calls of [generateKeypair] return the same keypair. *)
Definition fresh_keys (env : Env) : Prop :=
  forall i j k,
    generateKeypair env i = Ok k -> generateKeypair env j = Ok k -> i = j.

(** Every keypair used was generated, in the same order. *)
Definition keys_inv (env : Env) (w : World) : Prop :=
  used_keys (log w) `sublist_of` generated_keys env (keygenCalls w).

End AuctionPage.

(** ** Concrete surroundings used to run the page and the contract *)
Module Scenario.
Import JS AuctionPage.

Definition digit_value (c : ascii) : option N :=
  let n := N_of_ascii c in
  if ((48 <=? n) && (n <=? 57))%N then Some (n - 48)%N else None.

Fixpoint digits_value (acc : N) (s : string) : option N :=
  match s with
  | EmptyString => Some acc
  | String c s' =>
    match digit_value c with
    | Some d => digits_value (10 * acc + d)%N s'
    | None => None
    end
  end.

(** What [parseFloat] and [parseInt] give on a plain decimal numeral;
    anything else reads as [NaN] here. *)
Definition parse_numeral (s : string) : number :=
  match s with
  | EmptyString => NaN
  | _ => match digits_value 0 s with
         | Some n => Finite (Z.of_N n # 1)
         | None => NaN
         end
  end.

Definition user : string := "0xA11CE".
Definition auction : string := "0xC0FFEE".

Definition key (n : nat) : Keypair :=
  mkKeypair ("pub" +:+ pretty n) ("priv" +:+ pretty n).

(** A connected wallet, a deployed contract, a relayer that encrypts and
    signs without fault and answers user decryption as [decrypt] says. *)
Definition env (b : DemoMode.Browser) (decrypt : nat -> Res value) : Env :=
  {| fhevmInstance := true;
     walletClient := true;
     address := Some user;
     CONTRACT_ADDRESS := auction;
     browser := b;
     parseFloat := parse_numeral;
     parseInt := parse_numeral;
     Date_now := fun t => 1700000000000 + Z.of_nat t;
     typeErrorMessage := fun n =>
       match n with
       | Null => "Cannot read properties of null (reading 'message')"
       | Undefined =>
         "Cannot read properties of undefined (reading 'message')"
       end;
     encrypt := fun t _ _ _ => Ok (mkEncryptedInput (N.of_nat t + 4096) [7%N]);
     getSigner := fun _ => Ok tt;
     contract_submitBid := fun _ _ _ => Ok "0xtx";
     tx_wait := fun _ _ => Ok tt;
     contract_getMyResult := fun _ => Ok 77%N;
     generateKeypair := fun n => Ok (key n);
     createEIP712 := fun _ _ _ _ _ =>
       Ok (mkEIP712 "dom" (<["EIP712Domain" := "d"]> {["Req" := "r"]}) "msg");
     signTypedData := fun _ _ _ _ => Ok "0xsig";
     userDecrypt := fun t _ => decrypt t |}.

Definition plainBrowser : DemoMode.Browser :=
  DemoMode.mkBrowser true ∅ ∅ ∅.

(** The page opened with [?demo=true] after a demo-mode submit of 1500 *)
Definition demoBrowser : DemoMode.Browser :=
  DemoMode.mkBrowser true {["demo" := "true"]}
    (DemoMode.savePlaintext user "1500" ∅) ∅.

Definition always500 : nat -> Res value := fun _ => Throw (Error "HTTP 500").
Definition rejected : nat -> Res value :=
  fun _ => Throw (Error "User rejected").
Definition unavailable : nat -> Res value :=
  fun _ => Throw (Error "HTTP 503 Service Unavailable").
(** The relayer SDK decrypts a [euint32] to a bigint. *)
Definition answers (v : Z) : nat -> Res value := fun _ => Ok (JBigInt v).

(** Type a bid, submit it, wait out the countdown. *)
Definition submitAndWait (bid : string) : list Action :=
  [TypeBid bid; ClickSubmit] ++ repeat IntervalFires 10.

(** *** Sessions and contract states the properties are run on *)
Local Open Scope list_scope.

(** The contract deployed at address 1 over the cleartext scheme *)
Definition deployed : @SecretAuction.State FHE.cleartext :=
  SecretAuction.constructor (F := FHE.cleartext) 1.
Definition bidder : SecretAuction.Msg := SecretAuction.mkMsg 2 1700000000.

(** The contract's state after the bidder's call of [submitBid] with [v] *)
Definition afterBid (s : @SecretAuction.State FHE.cleartext) (v : Z)
    : @SecretAuction.State FHE.cleartext :=
  match SecretAuction.submitBid (F := FHE.cleartext) 1
          bidder v [] s with
  | SecretAuction.Returned _ s' => s'
  | SecretAuction.Reverted _ => s
  end.
Definition afterFirstBid := afterBid deployed 500.
Definition afterSecondBid := afterBid afterFirstBid 1500.

(** A relayer that answers every user decryption with an HTTP 500 *)
Definition env500 : Env := env plainBrowser always500.
(** The same with demo mode on and a plaintext of 1500 saved for the user *)
Definition envDemo500 : Env := env demoBrowser always500.
(** A user who refuses to sign, or any other error without '500' in it *)
Definition envRejected : Env := env plainBrowser rejected.
(** A relayer that answers every user decryption with an HTTP 503 *)
Definition env503 : Env := env plainBrowser unavailable.
(** A relayer that decrypts the result 1 *)
Definition envWon : Env := env plainBrowser (answers 1).

(** A bid of 1500 submitted and the countdown over *)
Definition ready500 : World := run env500 (submitAndWait "1500") initialWorld.
(** The world after the first, failed attempt *)
Definition failedAttempt : World :=
  (decryptAttempt env500 user (attemptStart ready500)).2.
(** The same session with the relayer that answers HTTP 503, and the
    world after its first attempt *)
Definition ready503 : World := run env503 (submitAndWait "1500") initialWorld.
Definition unavailableAttempt : World :=
  (decryptAttempt env503 user (attemptStart ready503)).2.
(** A session resolved with the result 1 *)
Definition wonSession : World :=
  run envWon (submitAndWait "1500" ++ [ClickDecrypt]) initialWorld.
(** A session whose decryption failed for good *)
Definition rejectedSession : World :=
  run envRejected (submitAndWait "1500" ++ [ClickDecrypt]) initialWorld.

(** A bid of 0 typed into the form *)
Definition zeroTyped : World := run env500 [TypeBid "0"] initialWorld.

End Scenario.

(** ** More of the contract, the page and the guide

    The definitions below add what the properties of the second half of this
    file are stated with: the evolution of the contract, readings of the
    page's log, the effect that initialises the FHEVM instance with the
    screen the page chooses, and the guide's two demo-mode handlers. *)

(** *** The contract over time *)
Module SecretAuctionHistory.
Import FHE SecretAuction.

Section History.
Context {F : Scheme}.
Variable this : address.

(** [evolves s s']: [s'] comes from [s] by successful calls of [submitBid]. *)
Inductive evolves : @State F -> @State F -> Prop :=
| evolves_refl s : evolves s s
| evolves_submitBid s s1 msg encryptedBid proof s' :
    evolves s s1 ->
    submitBid this msg encryptedBid proof s1 = Returned tt s' ->
    evolves s s'.

(** What holds of the stored results and of the access-control list in
    every state of the deployed contract: every bidder's result is stored,
    readable by the contract and by the bidder, and is 0 or 1; whatever
    anyone but the contract may read is 0 or 1. *)
Definition results_ok (s : @State F) : Prop :=
  (forall a, hasBid_at s a = true ->
     exists r, bidResults s !! a = Some r /\
               (toBytes32 r, this) ∈ acl s /\
               (toBytes32 r, a) ∈ acl s /\
               (clear32 r = 0 \/ clear32 r = 1)) /\
  (forall h u, (h, u) ∈ acl s ->
     u = this \/ clear_handle h = 0 \/ clear_handle h = 1).

End History.

(** The timestamps of the [BidSubmitted] events of [a], oldest first *)
Definition bid_times (a : address) (l : list Event) : list Z :=
  omap (fun ev => match ev with
                  | BidSubmitted b t => if decide (b = a) then Some t else None
                  end) l.
End SecretAuctionHistory.

(** *** Readings of the page's log and of what it renders *)
Module PageReadings.
Import JS AuctionPage.
Local Open Scope list_scope.

(** The calls made from world [w] on, in a world [w'] that continues it *)
Definition events_since (w w' : World) : list Event :=
  drop (length (log w)) (log w').

(** The milliseconds waited in [setTimeout]s *)
Definition timeout_ms (ev : Event) : Z :=
  match ev with
  | EvSetTimeout ms => ms
  | _ => 0
  end.
Definition timeout_total (l : list Event) : Z :=
  foldr (fun ev acc => timeout_ms ev + acc) 0 l.

(** The longest a run entered with [retryCount] can wait in retries:
    (r + 1) x 10 seconds for every retry count r from [retryCount] to 2 *)
Definition backoff_budget (retryCount : nat) : Z :=
  foldr (fun r acc => (Z.of_nat r + 1) * 10 * 1000 + acc) 0
        (seq retryCount (3 - retryCount)).


(** The call [ev], made as the call number [t] with [k] keypairs generated
    before it, threw [null] or [undefined]. *)
Definition call_threw (env : Env) (t k : nat) (ev : Event) (n : nullish)
    : Prop :=
  match ev with
  | EvEncrypt c u v => encrypt env t c u v = Throw (ThrowNullish n)
  | EvGetSigner => getSigner env t = Throw (ThrowNullish n)
  | EvSubmitBid h p => contract_submitBid env t h p = Throw (ThrowNullish n)
  | EvTxWait tx => tx_wait env t tx = Throw (ThrowNullish n)
  | EvGetMyResult => contract_getMyResult env t = Throw (ThrowNullish n)
  | EvGenerateKeypair => generateKeypair env k = Throw (ThrowNullish n)
  | EvCreateEIP712 key c s d =>
    createEIP712 env t key c s d = Throw (ThrowNullish n)
  | EvSignTypedData d ty m =>
    signTypedData env t d ty m = Throw (ThrowNullish n)
  | EvUserDecrypt req => userDecrypt env t req = Throw (ThrowNullish n)
  | EvSetInterval _ | EvSetTimeout _ => False
  end.

(** The last call made in [w'] threw [null] or [undefined]. *)
Definition last_call_threw (env : Env) (w' : World) (n : nullish) : Prop :=
  exists l ev,
    log w' = l ++ [ev] /\
    call_threw env (length l) (Nat.pred (keygenCalls w')) ev n.


(** [error && (...)]: the error box *)
Definition errorVisible (p : PageState) : bool :=
  match error p with
  | Some m => negb (is_empty m)
  | None => false
  end.

(** What ties a decryption request to the authorization that was signed for
    it and to the calls of the same attempt *)
Definition request_is_authorized (env : Env) (a : string) (w : World)
    (evs : list Event) (req : DecryptRequest) : Prop :=
  exists h kp eip sig start t1 t2,
    contract_getMyResult env (length (log w) + 1)%nat = Ok h /\
    generateKeypair env (keygenCalls w) = Ok kp /\
    createEIP712 env t1 (publicKey kp) [CONTRACT_ADDRESS env] start "10"
      = Ok eip /\
    signTypedData env t2 (domain eip) (delete "EIP712Domain" (types eip))
                  (message eip) = Ok sig /\
    EvCreateEIP712 (publicKey kp) [CONTRACT_ADDRESS env] start "10" ∈ evs /\
    EvSignTypedData (domain eip) (delete "EIP712Domain" (types eip))
                    (message eip) ∈ evs /\
    req = mkDecryptRequest [(h, CONTRACT_ADDRESS env)] (privateKey kp)
            (publicKey kp) (replace "0x" "" sig) [CONTRACT_ADDRESS env] a
            start "10".


(** How a run of [handleDecryptResult] on a connected page ends: with the
    value the last user decryption answered stored as the result, with an
    error shown, or thrown out of by the TypeError of its catch block, the
    error cleared and nothing shown. *)
Definition decrypt_outcome (env : Env) (w : World)
    (rw : Res unit * World) : Prop :=
  (rw.1 = Ok tt /\
   exists v l req,
     log rw.2 = l ++ [EvUserDecrypt req] /\
     userDecrypt env (length l) req = Ok v /\
     page rw.2 =
       setIsDecrypting false
         (setCanDecrypt false
            (setResult (Some v) (setError None (page w))))) \/
  (rw.1 = Ok tt /\
   exists m, m <> "" /\
             page rw.2 = setIsDecrypting false (setError (Some m) (page w))) \/
  (exists n, last_call_threw env rw.2 n /\
             rw.1 = Throw (Error (typeErrorMessage env n)) /\
             page rw.2 = setIsDecrypting false (setError None (page w))).

(** How a run of [handleSubmitBid] ends: with the bid accepted, with an
    error shown, or thrown out of by the TypeError of its catch block, the
    error cleared and nothing shown. *)
Definition submit_outcome (env : Env) (w : World) (evs : list Event)
    (rw : Res unit * World) : Prop :=
  (rw.1 = Ok tt /\
   exists a enc tx,
     address env = Some a /\
     evs = [EvEncrypt (CONTRACT_ADDRESS env) a
                      (parseInt env (bidAmount (page w)));
            EvGetSigner;
            EvSubmitBid (handle0 enc) (inputProof enc);
            EvTxWait tx;
            EvSetInterval 1000] /\
     page rw.2 =
       setIsSubmitting false
         (setCountdown 10
            (setBidAmount ""
               (setHasBidSubmitted true (setError None (page w))))) /\
     timers rw.2 = S (timers w)) \/
  (rw.1 = Ok tt /\
   exists m,
     m <> "" /\
     (page rw.2 = setError (Some m) (page w) \/
      page rw.2 = setIsSubmitting false (setError (Some m) (page w))) /\
     timers rw.2 = timers w /\
     EvSetInterval 1000 ∉ evs) \/
  (exists n,
     last_call_threw env rw.2 n /\
     rw.1 = Throw (Error (typeErrorMessage env n)) /\
     page rw.2 = setIsSubmitting false (setError None (page w)) /\
     timers rw.2 = timers w /\
     EvSetInterval 1000 ∉ evs).

End PageReadings.

(** *** Initialising the FHEVM instance, and the screen the page shows *)
Module PageInit.

Abbreviation Res := AuctionPage.Res.
Abbreviation Ok := AuctionPage.Ok.
Abbreviation Throw := AuctionPage.Throw.

(** [FHEVM_CONFIG] *)
Record Config := mkConfig {
  chainId : Z;
  aclContractAddress : string;
  kmsContractAddress : string;
  inputVerifierContractAddress : string;
  verifyingContractAddressDecryption : string;
  verifyingContractAddressInputVerification : string;
  gatewayChainId : Z;
  relayerUrl : string
}.

Definition FHEVM_CONFIG : Config :=
  mkConfig 11155111
    "0xf0Ffdc93b7E186bC2f8CB3dAA75D86d1930A433D"
    "0xbE0E383937d564D7FF0BC3b46c51f0bF8d5C311A"
    "0xBBC1fFCdc7C316aAAd72E807D9b0272BE8F84DA0"
    "0x5D8BD78e2ea6bbE41f26dFe9fdaEAa349e077478"
    "0x483b9dE06E4E4C7D35CCf5837A1668487406D955"
    10901
    "https://relayer.testnet.zama.org".

(** What the effect reads: the wagmi hooks, [window.relayerSDK] and its two
    calls, and [getWalletProvider()]. Providers and instances are opaque. *)
Record InitEnv := mkInitEnv {
  isConnected : bool;
  address : option string;
  walletClient : option N;
  relayerSDK : bool;
  initSDK : Res unit;
  getWalletProvider : option N;
  createInstance : Config -> N -> Res N
}.

(** The FHEVM state cells and the ref *)
Record InitState := mkInitState {
  fhevmInstance : option N;
  isInitializing : bool;
  initError : option string;
  isInitializingRef : bool
}.

Definition initialInit : InitState := mkInitState None false None false.

(** The body of [initFhevm]'s [try] block: the instance, or the error *)
Definition createFhevm (env : InitEnv) (walletClient : N) : Res N :=
  if negb (relayerSDK env)
  then Throw (JS.Error "Relayer SDK not loaded. Please refresh the page.")
  else match initSDK env with
       | AuctionPage.Throw e => Throw e
       | AuctionPage.Ok _ =>
         let provider := getWalletProvider env in
         let provider := match provider with
                         | Some p => Some p
                         | None => Some walletClient
                         end in
         match provider with
         | None =>
           Throw (JS.Error "No wallet provider found. Please install MetaMask or another Web3 wallet.")
         | Some p => createInstance env FHEVM_CONFIG p
         end
       end.

(** The effect that runs when the wallet connects *)
Definition initEffect (env : InitEnv) (st : InitState) : InitState :=
  match isConnected env, address env, walletClient env,
        fhevmInstance st, isInitializingRef st with
  | true, Some _, Some wallet, None, false =>
    match createFhevm env wallet with
    | AuctionPage.Ok instance =>
      mkInitState (Some instance) false None true
    | AuctionPage.Throw (JS.ErrorValue message) =>
      mkInitState (fhevmInstance st) false
                  (Some (JS.or_else message "Failed to initialize FHEVM")) false
    | AuctionPage.Throw (JS.ThrowNullish _) =>
      (* [e.message] throws in the catch block, before the ref is reset;
         [setInitError(null)] and the [finally] block have run *)
      mkInitState (fhevmInstance st) false None true
    end
  | _, _, _, _, _ => st
  end.

Inductive Screen :=
| ConnectYourWallet
| InitializingFHEVM
| InitializationFailed (initError : string)
| MainInterface.

(** The early returns of the component's render *)
Definition screen (env : InitEnv) (st : InitState) : Screen :=
  if negb (isConnected env) then ConnectYourWallet
  else if isInitializing st then InitializingFHEVM
  else match initError st with
       | Some m => if JS.is_empty m then MainInterface else InitializationFailed m
       | None => MainInterface
       end.

End PageInit.

(** *** The guide's demo-mode handlers *)
Module DemoFlow.

(** An awaited call of the guide resolves with a value or rejects with an
    error, of which the guide's handlers read [message] only. *)
Inductive Res (A : Type) :=
| Ok (a : A)
| Throw (message : option string).
Arguments Ok {A} a.
Arguments Throw {A} message.

(** The state cells of the guide's page, with [localStorage] and the
    delays it waits out *)
Record GuideState := mkGuide {
  demoMode : bool;
  isDecrypting : bool;
  canDecrypt : bool;
  result : option Z;
  error : option string;
  localStorage : gmap string string;
  delays : list Z
}.

Definition setIsDecrypting (v : bool) (s : GuideState) : GuideState :=
  mkGuide (demoMode s) v (canDecrypt s) (result s) (error s)
          (localStorage s) (delays s).
Definition setCanDecrypt (v : bool) (s : GuideState) : GuideState :=
  mkGuide (demoMode s) (isDecrypting s) v (result s) (error s)
          (localStorage s) (delays s).
Definition setResult (v : option Z) (s : GuideState) : GuideState :=
  mkGuide (demoMode s) (isDecrypting s) (canDecrypt s) v (error s)
          (localStorage s) (delays s).
(** [setError(error.message)]: an undefined message leaves no error shown *)
Definition setError (v : option string) (s : GuideState) : GuideState :=
  mkGuide (demoMode s) (isDecrypting s) (canDecrypt s) (result s) v
          (localStorage s) (delays s).

(** [handleSubmit]: the transaction and its confirmation may throw; nothing
    catches here. *)
Definition handleSubmit (userAddress plaintextValue : string)
    (submit wait : Res unit) (s : GuideState) : Res unit * GuideState :=
  match submit with
  | Throw e => (Throw e, s)
  | Ok _ =>
    match wait with
    | Throw e => (Throw e, s)
    | Ok _ =>
      let s1 :=
        if demoMode s
        then mkGuide (demoMode s) (isDecrypting s) (canDecrypt s) (result s)
               (error s)
               (DemoMode.savePlaintext userAddress plaintextValue
                  (localStorage s))
               (delays s)
        else s in
      (Ok tt, setCanDecrypt true s1)
    end
  end.

(** [Promise.race([decryptPromise, timeoutPromise])]: the timeout wins when
    it fires before the decryption settles. *)
Definition race (decrypt : Res Z) (timedOut : bool) : Res Z :=
  if timedOut then Throw (Some "TIMEOUT") else decrypt.

(** The mock branch: wait two seconds, compute the mock result from the
    saved value, show it, remove the record. *)
Definition useMock (userAddress : string) (s : GuideState) : GuideState :=
  let mock := DemoMode.mockFromStorage userAddress (localStorage s) in
  mkGuide (demoMode s) (isDecrypting s) (canDecrypt s) (Some mock.1) (error s)
          mock.2 (delays s ++ [2000]).

(** [handleDecrypt] *)
Definition handleDecrypt (userAddress : string) (decrypt : Res Z)
    (timedOut : bool) (s : GuideState) : GuideState :=
  let s0 := setIsDecrypting true s in
  let tried : Res unit * GuideState :=
    if demoMode s0 then
      match race decrypt timedOut with
      | Ok result => (Ok tt, setResult (Some result) s0)
      | Throw timeoutError =>
        if bool_decide (timeoutError = Some "TIMEOUT")
        then (Ok tt, useMock userAddress s0)
        else (Throw timeoutError, s0)
      end
    else
      match decrypt with
      | Ok result => (Ok tt, setResult (Some result) s0)
      | Throw e => (Throw e, s0)
      end in
  let caught :=
    match tried with
    | (Ok _, s1) => s1
    | (Throw error, s1) =>
      if demoMode s1 && AuctionPage.transient error
      then useMock userAddress s1
      else setError error s1
    end in
  setIsDecrypting false caught.

(** The failures after which the guide's [handleDecrypt] computes a mock
    result in demo mode: the five-second timeout won the race, or the
    decryption was rejected with the message 'TIMEOUT' or with a message
    that includes '500'. *)
Definition falls_back (decrypt : Res Z) (timedOut : bool) : bool :=
  timedOut ||
  match decrypt with
  | Ok _ => false
  | Throw e =>
    bool_decide (e = Some "TIMEOUT") || AuctionPage.transient e
  end.

Definition mocked (s : GuideState) (decrypt : Res Z) (timedOut : bool) : bool :=
  demoMode s && falls_back decrypt timedOut.

End DemoFlow.

(** *** More sessions, contract states and guide states to run the
    properties on *)
Module Sessions.
Import JS AuctionPage Scenario.
Local Open Scope list_scope.

(** A second bidder, at address 3, who bids 2000 after the first bid *)
Definition otherBidder : SecretAuction.Msg := SecretAuction.mkMsg 3 1700000060.
Definition afterOtherBid : @SecretAuction.State FHE.cleartext :=
  match SecretAuction.submitBid (F := FHE.cleartext) 1
          otherBidder 2000 [] afterFirstBid with
  | SecretAuction.Returned _ s' => s'
  | SecretAuction.Reverted _ => afterFirstBid
  end.

(** A bid of 1500 typed into the form *)
Definition typed1500 : World := run env500 [TypeBid "1500"] initialWorld.

(** A bid submitted and the countdown over, with a user who will refuse *)
Definition readyRejected : World :=
  run envRejected (submitAndWait "1500") initialWorld.
Definition rejectedAttempt : World :=
  (decryptAttempt envRejected user (attemptStart readyRejected)).2.

(** A relayer that answers an HTTP 500 while fewer than twenty calls have
    been made, and rejects with null from then on *)
Definition envNull : Env :=
  env plainBrowser
      (fun t => if (t <? 20)%nat then Throw (Error "HTTP 500")
                else Throw (ThrowNullish Null)).

(** The surroundings of [env500] with a transaction whose confirmation
    rejects with undefined *)
Definition envSilent : Env :=
  {| fhevmInstance := fhevmInstance env500;
     walletClient := walletClient env500;
     address := address env500;
     CONTRACT_ADDRESS := CONTRACT_ADDRESS env500;
     browser := browser env500;
     parseFloat := parseFloat env500;
     parseInt := parseInt env500;
     Date_now := Date_now env500;
     typeErrorMessage := typeErrorMessage env500;
     encrypt := encrypt env500;
     getSigner := getSigner env500;
     contract_submitBid := contract_submitBid env500;
     tx_wait := fun _ _ => Throw (ThrowNullish Undefined);
     contract_getMyResult := contract_getMyResult env500;
     generateKeypair := generateKeypair env500;
     createEIP712 := createEIP712 env500;
     signTypedData := signTypedData env500;
     userDecrypt := userDecrypt env500 |}.

(** The request of the first decryption attempt of [ready500] *)
Definition firstRequest : DecryptRequest :=
  mkDecryptRequest [(77%N, auction)] (privateKey (key 0)) (publicKey (key 0))
                   "sig" [auction] user "1700000000" "10".

(** The guide's page before a submit, in demo mode and outside it *)
Definition guideDemo : DemoFlow.GuideState :=
  DemoFlow.mkGuide true false false None None ∅ [].

(** A connected wallet with the relayer SDK loaded and no injected
    provider *)
Definition initEnv : PageInit.InitEnv :=
  PageInit.mkInitEnv true (Some user) (Some 7%N) true (Ok tt) None
                     (fun _ provider => Ok provider).

(** The same with an SDK whose initialisation rejects with null *)
Definition initEnvNull : PageInit.InitEnv :=
  PageInit.mkInitEnv true (Some user) (Some 7%N) true
                     (Throw (ThrowNullish Null)) None
                     (fun _ provider => Ok provider).

End Sessions.

(** * Properties *)

(** ** The FHE interface *)
Module FHEFacts.
Import FHE.

Lemma uint32_range v : 0 <= uint32 v < 2 ^ 32.
Proof. unfold uint32. apply Z.mod_pos_bound. lia. Qed.

Lemma uint32_small v : 0 <= v < 2 ^ 32 -> uint32 v = v.
Proof. intros Hv. unfold uint32. apply Z.mod_small. exact Hv. Qed.

Lemma uint32_idem v : uint32 (uint32 v) = uint32 v.
Proof. apply uint32_small, uint32_range. Qed.

(** The cleartext scheme has the ideal functionality, so the laws can be
    met. *)
Lemma cleartext_lawful : Lawful cleartext.
Proof.
  split.
  - intros v. apply uint32_idem.
  - reflexivity.
  - reflexivity.
  - reflexivity.
  - intros [] a b; reflexivity.
  - intros e. simpl. rewrite Z2N.id by apply uint32_range. apply uint32_idem.
  - intros this user v Hv. exists (uint32 v). split; [reflexivity|].
    simpl. rewrite uint32_idem. apply uint32_small, Hv.
Qed.

End FHEFacts.

(** ** The contract *)
Module SecretAuctionFacts.
Import FHE FHEFacts SecretAuction.

Section WithScheme.
Context {F : Scheme} {L : Lawful F}.
Variable this : address.

Abbreviation State := (@State F).

(** The result [submitBid] stores for a bid whose cleartext is [v]
    against a reserve price whose cleartext is [r] *)
Lemma clear_result (bid reserve : euint32) :
  clear32 (select (or (gt bid reserve) (eq bid reserve))
                  (asEuint32 (uint32 1)) (asEuint32 (uint32 0)))
  = if clear32 reserve <=? clear32 bid then 1 else 0.
Proof.
  rewrite clear_select, clear_or, clear_gt, clear_eq, !clear_asEuint32.
  destruct (clear32 reserve <=? clear32 bid) eqn:Hle.
  - apply Z.leb_le in Hle.
    destruct (clear32 reserve <? clear32 bid) eqn:Hlt; simpl.
    + reflexivity.
    + apply Z.ltb_ge in Hlt.
      replace (clear32 bid =? clear32 reserve) with true; [reflexivity|].
      symmetry. apply Z.eqb_eq. lia.
  - apply Z.leb_gt in Hle.
    replace (clear32 reserve <? clear32 bid) with false
      by (symmetry; apply Z.ltb_ge; lia).
    replace (clear32 bid =? clear32 reserve) with false
      by (symmetry; apply Z.eqb_neq; lia).
    reflexivity.
Qed.

(** [submitBid] reverts only when the input proof is refused; otherwise
    it returns the state written out below. *)
Lemma submitBid_returns (s : State) msg encryptedBid proof bid :
  fromExternal this (sender msg) encryptedBid proof = Some bid ->
  let result := select (or (gt bid (reservePrice s)) (eq bid (reservePrice s)))
                       (asEuint32 (uint32 1)) (asEuint32 (uint32 0)) in
  submitBid this msg encryptedBid proof s =
  Returned tt
    (mkState (reservePrice s)
             (<[sender msg := result]> (bidResults s))
             (<[sender msg := true]> (hasBid s))
             (<[sender msg := timestamp msg]> (bidTimestamp s))
             ((acl s ++ [(toBytes32 result, this)])
                ++ [(toBytes32 result, sender msg)])
             (emitted s ++ [BidSubmitted (sender msg) (timestamp msg)])).
Proof.
  intros Hbid result. unfold submitBid, bind. rewrite Hbid. reflexivity.
Qed.

Lemma submitBid_inv (s s' : State) msg encryptedBid proof :
  submitBid this msg encryptedBid proof s = Returned tt s' ->
  exists bid, fromExternal this (sender msg) encryptedBid proof = Some bid.
Proof.
  unfold submitBid, bind.
  destruct (fromExternal this (sender msg) encryptedBid proof) as [bid|].
  - eauto.
  - discriminate.
Qed.

(** The reserve price never changes after deployment. *)
Lemma reservePrice_reachable (s : State) :
  reachable this s -> clear32 (reservePrice s) = 1000.
Proof.
  induction 1 as [|s msg encryptedBid proof s' _ IH Hsub].
  - simpl. rewrite clear_asEuint32. reflexivity.
  - destruct (submitBid_inv _ _ _ _ _ Hsub) as [bid Hbid].
    rewrite (submitBid_returns _ _ _ _ _ Hbid) in Hsub.
    injection Hsub as <-. exact IH.
Qed.

(** [hasBid] holds exactly of the addresses with a [BidSubmitted] event. *)
Lemma hasBid_reachable (s : State) (a : address) :
  reachable this s -> hasBid_at s a = true <-> submitted s a.
Proof.
  induction 1 as [|s msg encryptedBid proof s' _ IH Hsub].
  - unfold hasBid_at, submitted. simpl. rewrite lookup_empty. simpl.
    split; [discriminate|]. intros [t Ht]. inversion Ht.
  - destruct (submitBid_inv _ _ _ _ _ Hsub) as [bid Hbid].
    rewrite (submitBid_returns _ _ _ _ _ Hbid) in Hsub.
    injection Hsub as <-.
    unfold hasBid_at, submitted in *. simpl.
    destruct (decide (sender msg = a)) as [->|Hne].
    + rewrite lookup_insert_eq. simpl. split; [|reflexivity].
      intros _. exists (timestamp msg). apply elem_of_app. right.
      apply list_elem_of_singleton. reflexivity.
    + rewrite lookup_insert_ne by exact Hne. rewrite IH.
      split; intros [t Ht]; exists t.
      * apply elem_of_app. left. exact Ht.
      * apply elem_of_app in Ht as [Ht|Ht]; [exact Ht|].
        apply list_elem_of_singleton in Ht. congruence.
Qed.

(** What the real path decrypts for a bid of [v] in a state [s]. *)
Lemma realPath_value (s : State) msg v :
  0 <= v < 2 ^ 32 ->
  realPath this s msg v =
  Some (if clear32 (reservePrice s) <=? v then 1 else 0).
Proof.
  intros Hv. unfold realPath.
  destruct (clear_fromExternal this (sender msg) v Hv) as (bid & Hbid & Hclear).
  rewrite (submitBid_returns _ _ _ _ _ Hbid).
  unfold getMyResult, bind, gets, require, hasBid_at, bidResults_at. simpl.
  repeat (rewrite lookup_insert_eq; simpl).
  unfold userDecrypt. simpl.
  rewrite !bool_decide_eq_true_2.
  - simpl. rewrite clear_toBytes32, clear_result, Hclear. reflexivity.
  - apply elem_of_app. right. apply list_elem_of_singleton. reflexivity.
  - apply elem_of_app. left. apply elem_of_app. right.
    apply list_elem_of_singleton. reflexivity.
Qed.

(** C1, as amended: for every bid value v in the uint32 range, submitting
    v to a deployed contract and then decrypting the stored result through
    the real path succeeds, and the decrypted result is 1, which the
    contract documents as success (the bid won), if and only if v >= 1000,
    the reserve price, and 0 (failure) otherwise; at the exact boundary
    v = 1000 the result is 1. This is the value the relayer decrypts; how
    the page displays a decrypted value is not part of it. *)
Theorem C1_real_path_won_iff_at_least_reserve (s : State) msg v :
  reachable this s ->
  0 <= v < 2 ^ 32 ->
  exists r,
    realPath this s msg v = Some r /\
    (r = 1 <-> 1000 <= v) /\
    (r = 0 <-> v < 1000) /\
    (v = 1000 -> r = 1).
Proof.
  intros Hs Hv.
  rewrite (realPath_value s msg v Hv), (reservePrice_reachable s Hs).
  destruct (1000 <=? v) eqn:Hle.
  - apply Z.leb_le in Hle. exists 1.
    split; [reflexivity|]. repeat split; intros; try lia.
  - apply Z.leb_gt in Hle. exists 0.
    split; [reflexivity|]. repeat split; intros; try lia.
Qed.

(** C10: in every state of the deployed contract, hasBid[msg.sender] is
    true exactly when the caller submitted a bid before; getMyResult then
    returns the handle of the caller's stored result, and otherwise
    reverts with "No bid submitted"; either way the state is unchanged. *)
Theorem C10_getMyResult_requires_a_bid (s : State) msg :
  reachable this s ->
  (hasBid_at s (sender msg) = true <-> submitted s (sender msg)) /\
  execute (getMyResult msg) s =
    if hasBid_at s (sender msg)
    then (inr (toBytes32 (bidResults_at s (sender msg))), s)
    else (inl "No bid submitted", s).
Proof.
  intros Hs. split.
  - apply hasBid_reachable, Hs.
  - unfold execute, getMyResult, bind, gets, require.
    destruct (hasBid_at s (sender msg)); reflexivity.
Qed.

(** The contract takes a bid from an address that already has one: the
    only thing [submitBid] checks is the input proof. *)
Lemma submitBid_overwrites (s : State) msg encryptedBid proof bid :
  hasBid_at s (sender msg) = true ->
  fromExternal this (sender msg) encryptedBid proof = Some bid ->
  exists s',
    submitBid this msg encryptedBid proof s = Returned tt s' /\
    bidResults_at s' (sender msg) =
      select (or (gt bid (reservePrice s)) (eq bid (reservePrice s)))
             (asEuint32 (uint32 1)) (asEuint32 (uint32 0)).
Proof.
  intros _ Hbid. eexists. split.
  - apply submitBid_returns, Hbid.
  - unfold bidResults_at. simpl. rewrite lookup_insert_eq. reflexivity.
Qed.

End WithScheme.

(** C1 at a bid of 1500 on the freshly deployed contract *)
Lemma C1_witness :
  exists r,
    realPath (F := cleartext) 1 Scenario.deployed Scenario.bidder 1500
      = Some r /\
    (r = 1 <-> 1000 <= 1500) /\
    (r = 0 <-> 1500 < 1000) /\
    (1500 = 1000 -> r = 1).
Proof.
  apply (C1_real_path_won_iff_at_least_reserve (L := cleartext_lawful) 1 Scenario.deployed
           Scenario.bidder 1500).
  - apply reach_constructor.
  - lia.
Defined.

(** C1 as stated fails at the boundary: for a bid of exactly 1000 the real
    path decrypts 1 (success, the bid won), not 0 (failure, the bid
    lost). *)
Lemma C1_boundary_bid_is_won :
  realPath (F := cleartext) 1 Scenario.deployed Scenario.bidder 1000
    = Some 1 /\
  (1 =? 0) = false.
Proof. split; [vm_compute; reflexivity | reflexivity]. Qed.

(** C10 for the bidder on the freshly deployed contract *)
Lemma C10_witness :
  (hasBid_at Scenario.deployed (sender Scenario.bidder) = true
     <-> submitted Scenario.deployed (sender Scenario.bidder)) /\
  execute (getMyResult (F := cleartext) Scenario.bidder) Scenario.deployed =
    if hasBid_at Scenario.deployed (sender Scenario.bidder)
    then (inr (toBytes32 (bidResults_at Scenario.deployed (sender Scenario.bidder))), Scenario.deployed)
    else (inl "No bid submitted", Scenario.deployed).
Proof.
  apply (C10_getMyResult_requires_a_bid (F := cleartext) 1 Scenario.deployed Scenario.bidder).
  apply reach_constructor.
Defined.

End SecretAuctionFacts.

(** ** The mock result of the demo-mode guide *)
Module DemoModeFacts.
Import FHE FHEFacts SecretAuction SecretAuctionFacts DemoMode.

Lemma fallback_eq (u : string) (v : N) :
  fallback u v = if decide (v = 888%N) then 1 else 0.
Proof.
  unfold fallback, mockFromStorage, savePlaintext, calculateMockResult. simpl.
  rewrite lookup_insert_eq. unfold JS.String_of, SECRET_NUMBER.
  destruct (decide (v = 888%N)) as [->|Hne].
  - rewrite bool_decide_eq_true_2; reflexivity.
  - rewrite bool_decide_eq_false_2; [reflexivity|].
    intros Heq. injection Heq as Heq. apply Hne.
    apply (inj pretty) in Heq. exact Heq.
Qed.

(** C2, as amended: the fallback outcome for a value v is Won exactly when
    v is 888, the guide's secret number; it is an equality test, not the
    real comparison's >= 1000 rule. For a uint32 value v the fallback
    equals what the real path decrypts exactly when v < 1000 and
    v is not 888 (both then say Lost). *)
Theorem C2_fallback_agrees_only_below_reserve {F : Scheme} {L : Lawful F} this
    (s : @State F) msg (u : string) (v : N) :
  reachable this s ->
  0 <= Z.of_N v < 2 ^ 32 ->
  (fallback u v = 1 <-> v = 888%N) /\
  (Some (fallback u v) = realPath this s msg (Z.of_N v)
     <-> (v < 1000)%N /\ v <> 888%N).
Proof.
  intros Hs Hv.
  rewrite (realPath_value this s msg _ Hv), (reservePrice_reachable this s Hs).
  rewrite fallback_eq.
  destruct (decide (v = 888%N)) as [->|Hne].
  - split; [tauto|]. simpl. split; [discriminate|]. intros [_ H]. congruence.
  - split; [split; [discriminate | tauto]|].
    destruct (1000 <=? Z.of_N v) eqn:Hle.
    + apply Z.leb_le in Hle. split; [discriminate|]. lia.
    + apply Z.leb_gt in Hle. split; [|reflexivity]. intros _. split; [lia|tauto].
Qed.

(** C2 at a value of 500 *)
Lemma C2_witness :
  (fallback "0xA11CE" 500 = 1 <-> 500%N = 888%N) /\
  (Some (fallback "0xA11CE" 500) = realPath (F := cleartext) 1 Scenario.deployed Scenario.bidder
                                     (Z.of_N 500)
     <-> (500 < 1000)%N /\ 500%N <> 888%N).
Proof.
  apply (C2_fallback_agrees_only_below_reserve (L := cleartext_lawful) 1 Scenario.deployed
           Scenario.bidder "0xA11CE" 500).
  - apply reach_constructor.
  - simpl. lia.
Defined.

(** C2 as stated fails: for 1500 the fallback says Lost (0) while the real
    comparison says Won (1); for 888 it is the other way round. *)
Lemma C2_fallback_differs_from_real_comparison :
  fallback "0xA11CE" 1500 = 0 /\
  realPath (F := cleartext) 1 Scenario.deployed Scenario.bidder 1500 = Some 1 /\
  fallback "0xA11CE" 888 = 1 /\
  realPath (F := cleartext) 1 Scenario.deployed Scenario.bidder 888 = Some 0.
Proof. vm_compute. repeat split; reflexivity. Qed.

End DemoModeFacts.

(** ** The page *)
Module AuctionPageFacts.
Import JS AuctionPage.
Local Open Scope list_scope.

(** Take the next external call of a handler apart: it answered or threw. *)
Ltac next_call :=
  match goal with
  | |- context [match ?r with Ok _ => _ | Throw _ => _ end] =>
    let a := fresh "a" in
    let e := fresh "e" in
    let H := fresh "Hcall" in
    destruct r as [a|e] eqn:H; simpl
  end.

Ltac run_monad :=
  unfold try_catch_finally, message_of, bind, call, call_generateKeypair,
    update, read, startInterval, now, ret, throw, on_page; simpl.

(** What [catch] was handed: null or undefined, or a value with its
    message. *)
Ltac caught :=
  match goal with
  | e : thrown |- _ =>
    let n := fresh "n" in
    let m := fresh "m" in
    destruct e as [n|m]; simpl
  end.

(** *** [handleSubmitBid] *)

Lemma handleSubmitBid_not_connected env w :
  connected env = false ->
  handleSubmitBid env w =
  (Ok tt, on_page (setError (Some "Please connect your wallet first")) w).
Proof.
  unfold connected, handleSubmitBid. intros Hc.
  destruct (fhevmInstance env && walletClient env); [|reflexivity].
  destruct (address env); [|reflexivity].
  rewrite bool_decide_eq_true_2 in Hc by discriminate.
  discriminate.
Qed.

Lemma connected_address env :
  connected env = true ->
  fhevmInstance env && walletClient env = true /\
  exists a, address env = Some a.
Proof.
  unfold connected. intros Hc. apply andb_prop in Hc as [H1 H2].
  split; [exact H1|]. apply bool_decide_eq_true_1 in H2.
  destruct (address env) as [a|]; [eauto | congruence].
Qed.

Lemma handleSubmitBid_invalid env w :
  connected env = true ->
  is_empty (bidAmount (page w))
    || le_zero (parseFloat env (bidAmount (page w))) = true ->
  handleSubmitBid env w =
  (Ok tt, on_page (setError (Some "Please enter a valid bid amount")) w).
Proof.
  intros Hc Hbad. apply connected_address in Hc as [Hr [a Ha]].
  unfold handleSubmitBid. rewrite Hr, Ha.
  unfold bind, read. rewrite Hbad. reflexivity.
Qed.

(** C9: a submit whose bid amount is empty or parses to a number that is
    not above zero is rejected with the validation message (with the
    connect-wallet message when the wallet is not connected); it makes no
    external call at all, so no encryption and no ledger submission, and it
    changes nothing of the bid state but the error: an idle page stays
    idle. *)
Theorem C9_invalid_bid_is_rejected env w :
  bidAmount (page w) = "" \/
    le_zero (parseFloat env (bidAmount (page w))) = true ->
  let w' := (handleSubmitBid env w).2 in
  handleSubmitBid env w =
    (Ok tt,
     on_page (setError (Some (if connected env
                              then "Please enter a valid bid amount"
                              else "Please connect your wallet first"))) w) /\
  log w' = log w /\
  ledger_submits (log w') = ledger_submits (log w) /\
  setError (error (page w)) (page w') = page w /\
  idle (page w') = idle (page w).
Proof.
  intros Hbad w'.
  assert (Hrun : handleSubmitBid env w =
    (Ok tt,
     on_page (setError (Some (if connected env
                              then "Please enter a valid bid amount"
                              else "Please connect your wallet first"))) w)).
  { destruct (connected env) eqn:Hc.
    - apply handleSubmitBid_invalid; [exact Hc|].
      destruct Hbad as [Hempty|Hle].
      + unfold is_empty. rewrite bool_decide_eq_true_2 by exact Hempty.
        reflexivity.
      + rewrite Hle. apply orb_true_r.
    - apply handleSubmitBid_not_connected, Hc. }
  subst w'. rewrite Hrun. simpl.
  repeat split. destruct (page w); reflexivity.
Qed.

(** The calls [handleSubmitBid] makes: the ledger's submit operation is
    called at most once, with the handle and the proof the gateway returned
    for [parseInt(bidAmount)]. *)
Lemma handleSubmitBid_log env w :
  exists evs,
    log (handleSubmitBid env w).2 = log w ++ evs /\
    keygenCalls (handleSubmitBid env w).2 = keygenCalls w /\
    used_keys evs = [] /\
    (ledger_submits evs = [] \/
     exists a enc,
       address env = Some a /\
       encrypt env (length (log w)) (CONTRACT_ADDRESS env) a
               (parseInt env (bidAmount (page w))) = Ok enc /\
       ledger_submits evs = [(handle0 enc, inputProof enc)]).
Proof.
  unfold handleSubmitBid.
  destruct (fhevmInstance env && walletClient env);
    [|exists (@nil Event); simpl; rewrite app_nil_r; auto].
  destruct (address env) as [a|];
    [|exists (@nil Event); simpl; rewrite app_nil_r; auto].
  run_monad.
  destruct (is_empty (bidAmount (page w))
            || le_zero (parseFloat env (bidAmount (page w))));
    [exists (@nil Event); simpl; rewrite app_nil_r; auto|].
  destruct (is_empty (CONTRACT_ADDRESS env));
    [exists (@nil Event); simpl; rewrite app_nil_r; auto|].
  simpl.
  next_call; [|caught; close_log; left; reflexivity].
  next_call; [|caught; close_log; left; reflexivity].
  rewrite !length_app in *. simpl in *.
  next_call;
    [|caught; close_log; right; exists a, a0; repeat split; assumption].
  next_call; [|caught];
    close_log; right; exists a, a0; repeat split; assumption.
Qed.

Lemma used_keys_app l1 l2 : used_keys (l1 ++ l2) = used_keys l1 ++ used_keys l2.
Proof. apply omap_app. Qed.

Lemma ledger_submits_app l1 l2 :
  ledger_submits (l1 ++ l2) = ledger_submits l1 ++ ledger_submits l2.
Proof. apply omap_app. Qed.

Lemma signer_calls_app l1 l2 :
  signer_calls (l1 ++ l2) = (signer_calls l1 + signer_calls l2)%nat.
Proof. unfold signer_calls. rewrite omap_app, length_app. reflexivity. Qed.

Lemma decrypt_calls_app l1 l2 :
  decrypt_calls (l1 ++ l2) = (decrypt_calls l1 + decrypt_calls l2)%nat.
Proof. unfold decrypt_calls. rewrite used_keys_app, length_app. reflexivity. Qed.

Lemma generated_keys_S env n :
  generated_keys env (S n) =
  generated_keys env n ++ option_list (ok_value (generateKeypair env n)).
Proof.
  unfold generated_keys. rewrite seq_S, omap_app. simpl.
  destruct (ok_value (generateKeypair env n)); reflexivity.
Qed.

Lemma grows_page env w f :
  hasBidSubmitted (f (page w)) = hasBidSubmitted (page w) ->
  grows env 0 w (on_page f w).
Proof.
  intros Hf. exists [], []. simpl. rewrite !app_nil_r.
  repeat split; auto.
Qed.

Lemma grows_trans env n1 n2 w1 w2 w3 :
  grows env n1 w1 w2 -> grows env n2 w2 w3 -> grows env (n1 + n2) w1 w3.
Proof.
  intros (evs1 & ks1 & Hl1 & Ht1 & Hh1 & Hs1 & Ha1 & Hd1 & Hk1 & Hg1)
         (evs2 & ks2 & Hl2 & Ht2 & Hh2 & Hs2 & Ha2 & Hd2 & Hk2 & Hg2).
  exists (evs1 ++ evs2), (ks1 ++ ks2). repeat split.
  - rewrite Hl2, Hl1, app_assoc. reflexivity.
  - congruence.
  - congruence.
  - rewrite ledger_submits_app, Hs1, Hs2. reflexivity.
  - rewrite signer_calls_app. lia.
  - rewrite decrypt_calls_app. lia.
  - rewrite used_keys_app. apply sublist_app; assumption.
  - rewrite Hg2, Hg1, app_assoc. reflexivity.
Qed.

Lemma grows_weaken env n m w w' :
  (n <= m)%nat -> grows env n w w' -> grows env m w w'.
Proof.
  intros Hnm (evs & ks & Hl & Ht & Hh & Hs & Ha & Hd & Hk & Hg).
  exists evs, ks. repeat split; auto; lia.
Qed.

(** *** One decryption attempt *)

Ltac close_attempt :=
  split; [|first [reflexivity | discriminate]];
  unfold grows; simpl; eexists _, _;
  rewrite <- ?app_assoc, ?generated_keys_S;
  repeat match goal with
         | H : generateKeypair _ _ = _ |- _ => rewrite H; clear H
         end;
  simpl;
  split; [reflexivity|]; split; [reflexivity|]; split; [reflexivity|];
  split; [reflexivity|]; split; [unfold signer_calls; simpl; lia|];
  split; [unfold decrypt_calls; simpl; lia|]; split;
  [|first [reflexivity | symmetry; apply app_nil_r]].

Ltac close_keys :=
  try match goal with k : Keypair |- _ => destruct k end;
  simpl; first [reflexivity | apply sublist_nil_l].

Ltac attempt_events :=
  eexists; rewrite <- ?app_assoc; simpl;
  split; [reflexivity|]; split; [reflexivity|];
  split; [unfold decrypt_calls; simpl; lia|];
  let ms := fresh "ms" in
  let Hin := fresh "Hin" in
  intros ms Hin;
  repeat (apply elem_of_cons in Hin as [Hin|Hin]; [discriminate|]);
  apply elem_of_nil in Hin; destruct Hin.

(** An attempt makes at most one user decryption, with the keypair it
    generated itself; when it throws it leaves the bid state alone. *)
Lemma decryptAttempt_grows env a w :
  grows env 1 w (decryptAttempt env a w).2 /\
  (forall e, (decryptAttempt env a w).1 = Throw e ->
             page (decryptAttempt env a w).2 = page w).
Proof.
  unfold decryptAttempt. run_monad.
  do 6 (next_call; [|close_attempt; close_keys]).
  close_attempt; close_keys.
Qed.

(** *** [handleDecryptResult], one level of the recursion *)

Lemma handleDecryptResult_not_connected env retryCount w :
  connected env = false ->
  handleDecryptResult env retryCount w =
  (Ok tt, on_page (setError (Some "Please connect your wallet first")) w).
Proof.
  unfold connected. intros Hc. rewrite handleDecryptResult_equation_1.
  destruct (fhevmInstance env && walletClient env); [|reflexivity].
  destruct (address env); [|reflexivity].
  rewrite bool_decide_eq_true_2 in Hc by discriminate.
  discriminate.
Qed.

Lemma handleDecryptResult_unfold env retryCount w a :
  fhevmInstance env && walletClient env = true ->
  address env = Some a ->
  handleDecryptResult env retryCount w =
  match decryptAttempt env a (attemptStart w) with
  | (Ok _, w1) => (Ok tt, on_page (setIsDecrypting false) w1)
  | (Throw (ThrowNullish n), w1) =>
    (Throw (Error (typeErrorMessage env n)),
     on_page (setIsDecrypting false) w1)
  | (Throw (ErrorValue e), w1) =>
    if is_retryable e retryCount
    then let (r, w3) := handleDecryptResult env (retryCount + 1)
                          (retryStart retryCount w1) in
         (r, on_page (setIsDecrypting false) w3)
    else (Ok tt, giveUp e w1)
  end.
Proof.
  intros Hr Ha. rewrite handleDecryptResult_equation_1, Hr, Ha.
  unfold try_catch_finally, message_of, bind, update, call, attemptStart,
    on_page, ret, throw.
  simpl.
  destruct (decryptAttempt env a _) as [[[]|[n|e]] w1];
    [reflexivity|reflexivity|].
  destruct (sumbool_of_bool (is_retryable e retryCount)) as [H|H];
    rewrite H; reflexivity.
Qed.

(** Induction along the retries: to prove a property of every retry count
    one may assume it of the next one when there is a next one. *)
Lemma retry_induction (P : nat -> Prop) :
  (forall retryCount, ((retryCount < 3)%nat -> P (retryCount + 1)%nat) ->
                      P retryCount) ->
  forall retryCount, P retryCount.
Proof.
  intros Hstep retryCount.
  remember (3 - retryCount)%nat as n eqn:Hn.
  revert retryCount Hn.
  induction n as [|n IH]; intros retryCount Hn; apply Hstep; intros Hlt.
  - lia.
  - apply IH. lia.
Qed.

Lemma is_retryable_true e retryCount :
  is_retryable e retryCount = true <->
  transient e = true /\ (retryCount < 3)%nat.
Proof.
  unfold is_retryable. rewrite andb_true_iff, Nat.ltb_lt. reflexivity.
Qed.

(** A run started with retry count [retryCount] makes at most
    [S (3 - retryCount)] user decryptions. *)
Lemma handleDecryptResult_grows env :
  forall retryCount w,
    grows env (S (3 - retryCount)) w (handleDecryptResult env retryCount w).2.
Proof.
  apply (retry_induction
           (fun retryCount => forall w,
              grows env (S (3 - retryCount)) w
                    (handleDecryptResult env retryCount w).2)).
  intros retryCount IH w.
  destruct (connected env) eqn:Hc.
  2:{ rewrite (handleDecryptResult_not_connected _ _ _ Hc). simpl.
      apply (grows_weaken env 0); [lia|]. apply grows_page. reflexivity. }
  apply connected_address in Hc as [Hr [a Ha]].
  rewrite (handleDecryptResult_unfold env retryCount w a Hr Ha).
  assert (Hstart : grows env 0 w (attemptStart w)).
  { unfold attemptStart.
    apply (grows_trans env 0 0 _ (on_page (setIsDecrypting true) w));
      apply grows_page; reflexivity. }
  destruct (decryptAttempt_grows env a (attemptStart w)) as [Hatt _].
  destruct (decryptAttempt env a (attemptStart w)) as [[[]|[n|e]] w1];
    simpl in Hatt;
    pose proof (grows_trans _ _ _ _ _ _ Hstart Hatt) as Hone.
  - simpl. apply (grows_weaken env (0 + 1 + 0)); [lia|].
    apply (grows_trans _ _ _ _ _ _ Hone).
    apply grows_page. reflexivity.
  - simpl. apply (grows_weaken env (0 + 1 + 0)); [lia|].
    apply (grows_trans _ _ _ _ _ _ Hone).
    apply grows_page. reflexivity.
  - destruct (is_retryable e retryCount) eqn:Hretry.
    + apply is_retryable_true in Hretry as [_ Hlt].
      specialize (IH Hlt (retryStart retryCount w1)).
      destruct (handleDecryptResult env (retryCount + 1)
                  (retryStart retryCount w1)) as [r w3].
      simpl in *.
      assert (Hsleep : grows env 0 w1 (retryStart retryCount w1)).
      { exists [EvSetTimeout ((Z.of_nat retryCount + 1) * 10 * 1000)], [].
        simpl. rewrite app_nil_r. repeat split; auto. }
      apply (grows_weaken env (0 + 1 + 0 + S (3 - (retryCount + 1)) + 0));
        [lia|].
      apply (grows_trans _ _ _ _ w3);
        [|apply grows_page; reflexivity].
      apply (grows_trans _ _ _ _ (retryStart retryCount w1)); [|exact IH].
      apply (grows_trans _ _ _ _ _ _ Hone Hsleep).
    + simpl. apply (grows_weaken env (0 + 1 + 0)); [lia|].
      apply (grows_trans _ _ _ _ _ _ Hone).
      unfold giveUp.
      apply (grows_weaken env (0 + 0)); [lia|].
      apply (grows_trans _ _ _ _
               (on_page (setError (Some (or_else e "Failed to decrypt result")))
                        w1));
        apply grows_page; reflexivity.
Qed.

(** *** The claims about retries *)

(** An attempt begins with [provider.getSigner()], the only call of it
    the attempt makes, and waits in no [setTimeout]. *)
Lemma decryptAttempt_starts env a w :
  exists evs,
    log (decryptAttempt env a w).2 = log w ++ EvGetSigner :: evs /\
    signer_calls evs = 0%nat /\
    (decrypt_calls evs <= 1)%nat /\
    (forall ms, EvSetTimeout ms ∉ evs).
Proof.
  unfold decryptAttempt. run_monad.
  do 6 (next_call; [|attempt_events]).
  attempt_events.
Qed.

(** A run of a connected page begins with an attempt. *)
Lemma handleDecryptResult_starts env retryCount w :
  connected env = true ->
  exists evs,
    log (handleDecryptResult env retryCount w).2 = log w ++ EvGetSigner :: evs.
Proof.
  intros Hc. apply connected_address in Hc as [Hr [a Ha]].
  rewrite (handleDecryptResult_unfold env retryCount w a Hr Ha).
  destruct (decryptAttempt_starts env a (attemptStart w)) as (evs & Hl & _).
  destruct (decryptAttempt env a (attemptStart w)) as [[[]|[n|e]] w1];
    simpl in Hl.
  - exists evs. exact Hl.
  - exists evs. exact Hl.
  - destruct (is_retryable e retryCount).
    + destruct (handleDecryptResult_grows env (retryCount + 1)
                  (retryStart retryCount w1)) as (evs2 & _ & Hl2 & _).
      destruct (handleDecryptResult env (retryCount + 1)
                  (retryStart retryCount w1)) as [r w3].
      simpl in *. rewrite Hl2, Hl, <- !app_assoc. simpl. eauto.
    + exists evs. exact Hl.
Qed.

(** C4, as amended: when the attempt of a run with retry count r < 3 fails
    with an error whose message includes the characters '500', the run
    shows the retry message, waits in one setTimeout of (r + 1) x 10 x 1000
    ms, and then makes exactly one new attempt (one getSigner call, no wait
    inside it, at most one user decryption); the run goes on as the run
    with retry count r + 1: if it
    calls anything after that attempt, it is the next wait, of
    (r + 2) x 10 x 1000 ms, followed by a further attempt. *)
Theorem C4_transient_failure_schedules_one_retry env retryCount w a e w1 :
  fhevmInstance env && walletClient env = true ->
  address env = Some a ->
  decryptAttempt env a (attemptStart w) = (Throw (ErrorValue e), w1) ->
  transient e = true ->
  (retryCount < 3)%nat ->
  exists attempt rest,
    log (handleDecryptResult env retryCount w).2 =
      log w1 ++ EvSetTimeout ((Z.of_nat retryCount + 1) * 10 * 1000)
             :: EvGetSigner :: attempt ++ rest /\
    log (decryptAttempt env a (attemptStart (retryStart retryCount w1))).2 =
      log w1 ++ EvSetTimeout ((Z.of_nat retryCount + 1) * 10 * 1000)
             :: EvGetSigner :: attempt /\
    signer_calls attempt = 0%nat /\
    (decrypt_calls attempt <= 1)%nat /\
    (forall ms, EvSetTimeout ms ∉ attempt) /\
    (rest = [] \/
     exists rest',
       rest = EvSetTimeout ((Z.of_nat retryCount + 2) * 10 * 1000)
              :: EvGetSigner :: rest') /\
    error (page (retryStart retryCount w1)) =
      Some (retrying_message retryCount) /\
    result (page (retryStart retryCount w1)) = result (page w) /\
    handleDecryptResult env retryCount w =
      (let (r, w3) := handleDecryptResult env (retryCount + 1)
                        (retryStart retryCount w1) in
       (r, on_page (setIsDecrypting false) w3)).
Proof.
  intros Hr Ha Hatt Htr Hlt.
  assert (Hc : connected env = true).
  { unfold connected. rewrite Hr, Ha. reflexivity. }
  rewrite (handleDecryptResult_unfold env retryCount w a Hr Ha), Hatt.
  assert (Hretry : is_retryable e retryCount = true)
    by (apply is_retryable_true; auto).
  rewrite Hretry.
  rewrite (handleDecryptResult_unfold env (retryCount + 1) _ a Hr Ha).
  destruct (decryptAttempt_starts env a
              (attemptStart (retryStart retryCount w1)))
    as (attempt & Hl & Hsig & Hdec & Hwait).
  simpl in Hl. rewrite <- app_assoc in Hl. simpl in Hl.
  assert (Hpage : result (page w1) = result (page w)).
  { destruct (decryptAttempt_grows env a (attemptStart w)) as [_ Hpage].
    rewrite Hatt in Hpage. simpl in Hpage.
    rewrite (Hpage _ eq_refl). reflexivity. }
  exists attempt.
  destruct (decryptAttempt env a (attemptStart (retryStart retryCount w1)))
    as [[[]|[n|e']] w3]; simpl in Hl.
  - exists []. rewrite app_nil_r. simpl. repeat split; auto.
  - exists []. rewrite app_nil_r. simpl. repeat split; auto.
  - destruct (is_retryable e' (retryCount + 1)) eqn:Hnext.
    + destruct (handleDecryptResult_starts env (retryCount + 1 + 1)
                  (retryStart (retryCount + 1) w3) Hc) as (rest' & Hl').
      destruct (handleDecryptResult env (retryCount + 1 + 1)
                  (retryStart (retryCount + 1) w3)) as [r w5].
      simpl in Hl'. simpl.
      exists (EvSetTimeout ((Z.of_nat retryCount + 2) * 10 * 1000)
                :: EvGetSigner :: rest').
      split.
      * rewrite Hl', Hl, <- !app_assoc. simpl. rewrite <- ?app_assoc. simpl.
        replace (Z.of_nat (retryCount + 1) + 1) with (Z.of_nat retryCount + 2)
          by lia.
        reflexivity.
      * repeat split; eauto.
    + exists []. rewrite app_nil_r. simpl. repeat split; auto.
Qed.

(** C5, as amended: a run whose retry count has reached 3 and whose attempt
    fails with a transient error makes no further call: in that one step it
    stores the error's message (or 'Failed to decrypt result') and clears
    isDecrypting, leaving the result as it was, whatever the demo mode of
    the browser; the handler has no fallback path. A run started with retry
    count r makes at most 1 + (3 - r) attempts, and so at most as many user
    decryptions: at most 4 per click. *)
Theorem C5_no_attempt_after_retries_exhausted env retryCount w a e w1 :
  fhevmInstance env && walletClient env = true ->
  address env = Some a ->
  decryptAttempt env a (attemptStart w) = (Throw (ErrorValue e), w1) ->
  transient e = true ->
  (3 <= retryCount)%nat ->
  handleDecryptResult env retryCount w = (Ok tt, giveUp e w1) /\
  log (giveUp e w1) = log w1 /\
  error (page (giveUp e w1)) = Some (or_else e "Failed to decrypt result") /\
  result (page (giveUp e w1)) = result (page w) /\
  isDecrypting (page (giveUp e w1)) = false /\
  (forall r0 w0, exists evs,
      log (handleDecryptResult env r0 w0).2 = log w0 ++ evs /\
      (signer_calls evs <= 1 + (3 - r0))%nat /\
      (decrypt_calls evs <= 1 + (3 - r0))%nat).
Proof.
  intros Hr Ha Hatt Htr Hge.
  rewrite (handleDecryptResult_unfold env retryCount w a Hr Ha), Hatt.
  assert (Hretry : is_retryable e retryCount = false).
  { unfold is_retryable. rewrite Htr. simpl. apply Nat.ltb_ge. exact Hge. }
  rewrite Hretry. repeat split.
  - destruct (decryptAttempt_grows env a (attemptStart w)) as [_ Hpage].
    rewrite Hatt in Hpage. simpl in *.
    rewrite (Hpage _ eq_refl). reflexivity.
  - intros r0 w0.
    destruct (handleDecryptResult_grows env r0 w0)
      as (evs & ks & Hl & _ & _ & _ & Hsig & Hd & _).
    exists evs. split; [exact Hl | split; [exact Hsig | exact Hd]].
Qed.

(** *** Key material *)

Lemma elem_of_generated_keys env n k :
  k ∈ generated_keys env n ->
  exists i, (i < n)%nat /\ generateKeypair env i = Ok k.
Proof.
  unfold generated_keys. rewrite list_elem_of_omap.
  intros (i & Hi & Hk). apply elem_of_seq in Hi.
  exists i. split; [lia|].
  destruct (generateKeypair env i); simpl in Hk; congruence.
Qed.

Lemma NoDup_generated_keys env n :
  fresh_keys env -> NoDup (generated_keys env n).
Proof.
  intros Hfresh. induction n as [|n IH].
  - constructor.
  - rewrite generated_keys_S. apply NoDup_app. split; [exact IH|]. split.
    + intros k Hk Hk'.
      apply elem_of_generated_keys in Hk as (i & Hi & Hgen).
      destruct (generateKeypair env n) as [k'|] eqn:Hn; simpl in Hk'.
      * apply list_elem_of_singleton in Hk'. subst k'.
        specialize (Hfresh i n k Hgen Hn). lia.
      * inversion Hk'.
    + destruct (ok_value (generateKeypair env n)); simpl.
      * apply NoDup_singleton.
      * constructor.
Qed.

Lemma grows_keys_inv env n w w' :
  grows env n w w' -> keys_inv env w -> keys_inv env w'.
Proof.
  intros (evs & ks & Hl & _ & _ & _ & _ & _ & Hk & Hg) Hinv.
  unfold keys_inv. rewrite Hl, Hg, used_keys_app.
  apply sublist_app; assumption.
Qed.

Lemma step_keys_inv env a w : keys_inv env w -> keys_inv env (step env a w).
Proof.
  intros Hinv. destruct a; simpl.
  - destruct (bidInputEnabled (page w)); exact Hinv.
  - destruct (submitEnabled (page w)); [|exact Hinv].
    destruct (handleSubmitBid_log env w) as (evs & Hl & Hg & Hk & _).
    unfold keys_inv. rewrite Hl, Hg, used_keys_app, Hk, app_nil_r.
    exact Hinv.
  - destruct (timers w); [exact Hinv|].
    unfold countdownTick, on_page.
    destruct (countdown (page w) <=? 1); exact Hinv.
  - destruct (decryptEnabled (page w)); [|exact Hinv].
    eapply grows_keys_inv; [apply handleDecryptResult_grows|exact Hinv].
  - destruct (tryAgainVisible (page w)); exact Hinv.
Qed.

Lemma run_keys_inv env actions w :
  keys_inv env w -> keys_inv env (run env actions w).
Proof.
  revert w. induction actions as [|a actions IH]; intros w Hinv.
  - exact Hinv.
  - simpl. apply IH, step_keys_inv, Hinv.
Qed.

(** C6: as long as the SDK's generateKeypair never returns the same
    keypair twice, no two user decryptions of a session, retries included,
    are made with the same keypair: every attempt calls generateKeypair
    itself and uses the keypair of that call. *)
Theorem C6_no_keypair_is_reused env actions :
  fresh_keys env ->
  let w := run env actions initialWorld in
  NoDup (used_keys (log w)) /\
  used_keys (log w) `sublist_of` generated_keys env (keygenCalls w).
Proof.
  intros Hfresh w.
  assert (Hinv : keys_inv env w).
  { apply run_keys_inv. unfold keys_inv. simpl. constructor. }
  split; [|exact Hinv].
  apply (sublist_NoDup _ (generated_keys env (keygenCalls w)));
    [|exact Hinv].
  apply NoDup_generated_keys, Hfresh.
Qed.

(** *** What reaches the ledger *)

(** C3: whatever the user does, the only call of the ledger's submit
    operation the page makes is the one of a submit click, and its
    arguments are the handle and the proof the gateway returned when it
    encrypted parseInt(bidAmount); the bid amount itself is not among the
    arguments. *)
Theorem C3_ledger_receives_only_the_encrypted_bid env a w :
  exists evs,
    log (step env a w) = log w ++ evs /\
    (ledger_submits evs = [] \/
     exists addr enc,
       a = ClickSubmit /\
       address env = Some addr /\
       encrypt env (length (log w)) (CONTRACT_ADDRESS env) addr
               (parseInt env (bidAmount (page w))) = Ok enc /\
       ledger_submits evs = [(handle0 enc, inputProof enc)]).
Proof.
  assert (Hnone : exists evs : list Event,
             log w = log w ++ evs /\
             (ledger_submits evs = [] \/
              exists addr enc,
                a = ClickSubmit /\
                address env = Some addr /\
                encrypt env (length (log w)) (CONTRACT_ADDRESS env) addr
                        (parseInt env (bidAmount (page w))) = Ok enc /\
                ledger_submits evs = [(handle0 enc, inputProof enc)])).
  { exists []. rewrite app_nil_r. split; [reflexivity | left; reflexivity]. }
  destruct a; simpl.
  - destruct (bidInputEnabled (page w)); exact Hnone.
  - destruct (submitEnabled (page w)); [|exact Hnone].
    destruct (handleSubmitBid_log env w) as (evs & Hl & _ & _ & Hs).
    exists evs. split; [exact Hl|].
    destruct Hs as [Hs|(addr & enc & Ha & He & Hs)]; [left; exact Hs|].
    right. exists addr, enc. auto.
  - destruct (timers w); [exact Hnone|].
    unfold countdownTick, on_page.
    destruct (countdown (page w) <=? 1); exact Hnone.
  - destruct (decryptEnabled (page w)); [|exact Hnone].
    destruct (handleDecryptResult_grows env 0 w)
      as (evs & ks & Hl & _ & _ & Hs & _).
    exists evs. split; [exact Hl | left; exact Hs].
  - destruct (tryAgainVisible (page w)); exact Hnone.
Qed.

(** *** One submission at a time *)

Lemma step_keeps_hasBidSubmitted env a w :
  hasBidSubmitted (page w) = true ->
  hasBidSubmitted (page (step env a w)) = false ->
  a = ClickTryAgain /\ result (page w) <> None.
Proof.
  intros Hsub Hgone. destruct a; simpl in Hgone.
  - destruct (bidInputEnabled (page w)); simpl in Hgone; congruence.
  - unfold submitEnabled, bidFormVisible in Hgone. rewrite Hsub in Hgone.
    simpl in Hgone. congruence.
  - destruct (timers w); [congruence|].
    unfold countdownTick, on_page in Hgone.
    destruct (countdown (page w) <=? 1); simpl in Hgone; congruence.
  - destruct (decryptEnabled (page w)); [|congruence].
    destruct (handleDecryptResult_grows env 0 w)
      as (evs & ks & _ & _ & Hh & _).
    congruence.
  - split; [reflexivity|].
    unfold tryAgainVisible, resultVisible in Hgone.
    destruct (result (page w)); [discriminate|].
    rewrite bool_decide_eq_false_2 in Hgone by (intros H; apply H; reflexivity).
    congruence.
Qed.

(** C7, as amended: in the page a submit click has no effect while a bid is
    submitted or being submitted, and a submitted bid stays submitted until
    Try Again is used on a shown result; the contract itself accepts a bid
    from an address that already has one, whenever the input proof
    verifies, and overwrites that address's result. *)
Theorem C7_page_gates_resubmission_contract_does_not :
  (forall env w,
      hasBidSubmitted (page w) || isSubmitting (page w) = true ->
      step env ClickSubmit w = w) /\
  (forall env a w,
      hasBidSubmitted (page w) = true ->
      hasBidSubmitted (page (step env a w)) = false ->
      a = ClickTryAgain /\ result (page w) <> None) /\
  (forall (F : FHE.Scheme) this (s : @SecretAuction.State F) msg
          encryptedBid proof bid,
      SecretAuction.hasBid_at s (SecretAuction.sender msg) = true ->
      FHE.fromExternal this (SecretAuction.sender msg) encryptedBid proof
        = Some bid ->
      exists s',
        SecretAuction.submitBid this msg encryptedBid proof s
          = SecretAuction.Returned tt s' /\
        SecretAuction.bidResults_at s' (SecretAuction.sender msg) =
          FHE.select
            (FHE.or (FHE.gt bid (SecretAuction.reservePrice s))
                    (FHE.eq bid (SecretAuction.reservePrice s)))
            (FHE.asEuint32 (FHE.uint32 1)) (FHE.asEuint32 (FHE.uint32 0))).
Proof.
  split; [|split].
  - intros env w Hbusy. simpl. unfold submitEnabled, bidFormVisible.
    destruct (hasBidSubmitted (page w)); [reflexivity|].
    simpl in Hbusy. rewrite Hbusy. reflexivity.
  - apply step_keeps_hasBidSubmitted.
  - intros F this s msg encryptedBid proof bid.
    apply SecretAuctionFacts.submitBid_overwrites.
Qed.

(** *** Reset *)

Lemma handleTryAgain_clears p :
  handleTryAgain p =
  mkPage "" (isSubmitting p) (isDecrypting p) false false 0 None None.
Proof. reflexivity. Qed.

(** C8, as amended: Try Again is offered exactly while a result is shown;
    used on a resolved session it returns the bid state to the initial,
    idle one, with no result, no error, no countdown, no bid amount, not
    submitted and not decryptable; whenever handleTryAgain runs it clears
    these six fields; on a failed session (an error and no result) the page
    offers no reset and the action changes nothing. *)
Theorem C8_reset_clears_a_resolved_session env w :
  (tryAgainVisible (page w) = true <-> result (page w) <> None) /\
  (resolved (page w) = true ->
     page (step env ClickTryAgain w) = initialPage /\
     idle (page (step env ClickTryAgain w)) = true) /\
  handleTryAgain (page w) =
    mkPage "" (isSubmitting (page w)) (isDecrypting (page w))
           false false 0 None None /\
  (failed (page w) = true -> step env ClickTryAgain w = w).
Proof.
  split; [|split; [|split]].
  - unfold tryAgainVisible, resultVisible. apply bool_decide_eq_true.
  - unfold resolved, busy. intros Hres.
    apply andb_prop in Hres as [Hbusy Hresult].
    apply negb_true_iff, orb_false_iff in Hbusy as [Hs Hd].
    simpl. unfold tryAgainVisible, resultVisible. rewrite Hresult. simpl.
    rewrite handleTryAgain_clears, Hs, Hd. split; reflexivity.
  - apply handleTryAgain_clears.
  - unfold failed. intros Hfailed.
    apply andb_prop in Hfailed as [Hfailed _].
    apply andb_prop in Hfailed as [_ Hnone].
    apply bool_decide_eq_true in Hnone.
    simpl. unfold tryAgainVisible, resultVisible.
    rewrite bool_decide_eq_false_2; [reflexivity|].
    intros H. apply H, Hnone.
Qed.

End AuctionPageFacts.

(** ** The claims at concrete sessions *)
Module ScenarioFacts.
Import JS AuctionPage AuctionPageFacts Scenario.
Local Open Scope list_scope.

Example ready500_ledger :
  ledger_submits (log ready500) = [(4096%N, [7%N])] /\
  page ready500 = mkPage "" false false true true 0 None None.
Proof. vm_compute. split; reflexivity. Qed.

(** The page stores the bigint as it came and compares it with the number
    1: the decrypted 1 is displayed as Bid Too Low. *)
Example wonSession_outcome :
  result (page wonSession) = Some (JBigInt 1) /\
  shownOutcome (page wonSession) = Some Lost.
Proof. vm_compute. split; reflexivity. Qed.

Lemma scenario_keys_fresh b decrypt : fresh_keys (env b decrypt).
Proof.
  intros i j k Hi Hj. simpl in Hi, Hj.
  rewrite <- Hj in Hi. injection Hi as Hpub _.
  exact (pretty_nat_inj i j Hpub).
Qed.

(** C4 at the first failure of a session whose relayer answers HTTP 500 *)
Lemma C4_witness :
  exists attempt rest,
    log (handleDecryptResult env500 0 ready500).2 =
      log failedAttempt ++ EvSetTimeout ((Z.of_nat 0 + 1) * 10 * 1000)
                        :: EvGetSigner :: attempt ++ rest /\
    log (decryptAttempt env500 user
           (attemptStart (retryStart 0 failedAttempt))).2 =
      log failedAttempt ++ EvSetTimeout ((Z.of_nat 0 + 1) * 10 * 1000)
                        :: EvGetSigner :: attempt /\
    signer_calls attempt = 0%nat /\
    (decrypt_calls attempt <= 1)%nat /\
    (forall ms, EvSetTimeout ms ∉ attempt) /\
    (rest = [] \/
     exists rest',
       rest = EvSetTimeout ((Z.of_nat 0 + 2) * 10 * 1000)
              :: EvGetSigner :: rest') /\
    error (page (retryStart 0 failedAttempt)) = Some (retrying_message 0) /\
    result (page (retryStart 0 failedAttempt)) = result (page ready500) /\
    handleDecryptResult env500 0 ready500 =
      (let (r, w3) := handleDecryptResult env500 (0 + 1)
                        (retryStart 0 failedAttempt) in
       (r, on_page (setIsDecrypting false) w3)).
Proof.
  apply (C4_transient_failure_schedules_one_retry env500 0%nat ready500 user
           (Some "HTTP 500") failedAttempt).
  - reflexivity.
  - reflexivity.
  - vm_compute. reflexivity.
  - reflexivity.
  - lia.
Defined.

(** C4 as stated fails for the server-side 5xx class: an HTTP 503 at retry
    count 0 is not retried; the run ends after the one attempt, without a
    setTimeout, and shows the error. What is retried is a message with the
    characters 500 in it, such as one that mentions 1500 ms. *)
Lemma C4_server_error_503_is_not_retried :
  transient (Some "HTTP 503 Service Unavailable") = false /\
  (decryptAttempt env503 user (attemptStart ready503)).1
    = Throw (Error "HTTP 503 Service Unavailable") /\
  handleDecryptResult env503 0 ready503
    = (Ok tt, giveUp (Some "HTTP 503 Service Unavailable") unavailableAttempt) /\
  log (giveUp (Some "HTTP 503 Service Unavailable") unavailableAttempt)
    = log unavailableAttempt /\
  decrypt_calls (log (handleDecryptResult env503 0 ready503).2) = 1%nat /\
  error (page (handleDecryptResult env503 0 ready503).2)
    = Some "HTTP 503 Service Unavailable" /\
  transient (Some "request took 1500 ms") = true.
Proof. vm_compute. repeat split; reflexivity. Qed.

(** C5 at a run entered with retry count 3 *)
Lemma C5_witness :
  handleDecryptResult env500 3 ready500
    = (Ok tt, giveUp (Some "HTTP 500") failedAttempt) /\
  log (giveUp (Some "HTTP 500") failedAttempt) = log failedAttempt /\
  error (page (giveUp (Some "HTTP 500") failedAttempt))
    = Some (or_else (Some "HTTP 500") "Failed to decrypt result") /\
  result (page (giveUp (Some "HTTP 500") failedAttempt))
    = result (page ready500) /\
  isDecrypting (page (giveUp (Some "HTTP 500") failedAttempt)) = false /\
  (forall r0 w0, exists evs,
      log (handleDecryptResult env500 r0 w0).2 = log w0 ++ evs /\
      (signer_calls evs <= 1 + (3 - r0))%nat /\
      (decrypt_calls evs <= 1 + (3 - r0))%nat).
Proof.
  apply (C5_no_attempt_after_retries_exhausted env500 3%nat ready500 user
           (Some "HTTP 500") failedAttempt).
  - reflexivity.
  - reflexivity.
  - vm_compute. reflexivity.
  - reflexivity.
  - lia.
Defined.

(** C5 as stated fails where it promises a fallback: with demo mode on and
    a plaintext saved, four transient failures end the click with the error
    and no result; no fallback outcome is produced. The bound on attempts is
    one per click: the Decrypt button is still there, and a second click
    makes four more. *)
Lemma C5_retries_end_in_failure_in_demo_mode :
  let w := run envDemo500 (submitAndWait "1500" ++ [ClickDecrypt])
               initialWorld in
  DemoMode.checkDemoMode (browser envDemo500) = true /\
  DemoMode.localStorage (browser envDemo500) !! DemoMode.lastGuess_key user
    = Some "1500" /\
  decrypt_calls (log w) = 4%nat /\
  result (page w) = None /\
  error (page w) = Some "HTTP 500" /\
  resolved (page w) = false /\
  failed (page w) = true /\
  decrypt_calls (log (step envDemo500 ClickDecrypt w)) = 8%nat.
Proof. vm_compute. repeat split; reflexivity. Qed.

(** C6 at a session with two clicks on Decrypt, eight attempts in all *)
Lemma C6_witness :
  let w := run env500 (submitAndWait "1500" ++ [ClickDecrypt; ClickDecrypt])
               initialWorld in
  NoDup (used_keys (log w)) /\
  used_keys (log w) `sublist_of` generated_keys env500 (keygenCalls w).
Proof.
  apply (C6_no_keypair_is_reused env500
           (submitAndWait "1500" ++ [ClickDecrypt; ClickDecrypt])).
  apply scenario_keys_fresh.
Defined.

Example two_clicks_eight_keys :
  used_keys (log (run env500
                    (submitAndWait "1500" ++ [ClickDecrypt; ClickDecrypt])
                    initialWorld))
  = [key 0; key 1; key 2; key 3; key 4; key 5; key 6; key 7].
Proof. vm_compute. reflexivity. Qed.

(** C7 at a submitted bid: a second submit click changes nothing *)
Lemma C7_witness : step env500 ClickSubmit ready500 = ready500.
Proof.
  apply (proj1 C7_page_gates_resubmission_contract_does_not env500 ready500).
  reflexivity.
Defined.

(** C7 as stated fails on the contract: the same address bids 500 and then
    1500 with no decryption in between; both calls return and the second
    result replaces the first. *)
Lemma C7_contract_accepts_a_second_bid :
  SecretAuction.submitBid (F := FHE.cleartext) 1
    Scenario.bidder 500 [] Scenario.deployed
    = SecretAuction.Returned tt afterFirstBid /\
  SecretAuction.hasBid_at afterFirstBid 2 = true /\
  FHE.clear32 (SecretAuction.bidResults_at afterFirstBid 2) = 0 /\
  SecretAuction.submitBid (F := FHE.cleartext) 1
    Scenario.bidder 1500 [] afterFirstBid
    = SecretAuction.Returned tt afterSecondBid /\
  FHE.clear32 (SecretAuction.bidResults_at afterSecondBid 2) = 1.
Proof.
  split; [reflexivity|].
  split; [vm_compute; reflexivity|].
  split; [vm_compute; reflexivity|].
  split; [reflexivity|].
  vm_compute. reflexivity.
Qed.

(** C8 at a session resolved with the result 1 *)
Lemma C8_witness :
  page (step envWon ClickTryAgain wonSession) = initialPage /\
  idle (page (step envWon ClickTryAgain wonSession)) = true.
Proof.
  apply (proj1 (proj2 (C8_reset_clears_a_resolved_session envWon wonSession))).
  vm_compute. reflexivity.
Defined.

(** C8 as stated fails for a failed session: after a decryption that failed
    for good the session is terminal, yet the page offers no Try Again and
    the action leaves the session where it is, not idle. *)
Lemma C8_no_reset_from_a_failed_decryption :
  failed (page rejectedSession) = true /\
  terminal (page rejectedSession) = true /\
  error (page rejectedSession) = Some "User rejected" /\
  tryAgainVisible (page rejectedSession) = false /\
  step envRejected ClickTryAgain rejectedSession = rejectedSession /\
  idle (page rejectedSession) = false.
Proof. vm_compute. repeat split; reflexivity. Qed.

(** C9 at a typed bid of 0 *)
Lemma C9_witness :
  let w' := (handleSubmitBid env500 zeroTyped).2 in
  handleSubmitBid env500 zeroTyped =
    (Ok tt,
     on_page (setError (Some (if connected env500
                              then "Please enter a valid bid amount"
                              else "Please connect your wallet first")))
             zeroTyped) /\
  log w' = log zeroTyped /\
  ledger_submits (log w') = ledger_submits (log zeroTyped) /\
  setError (error (page zeroTyped)) (page w') = page zeroTyped /\
  idle (page w') = idle (page zeroTyped).
Proof.
  apply (C9_invalid_bid_is_rejected env500 zeroTyped).
  right. reflexivity.
Defined.

End ScenarioFacts.

(** ** More about the contract *)
Module SecretAuctionMore.
Import FHE FHEFacts SecretAuction SecretAuctionFacts SecretAuctionHistory.
Local Open Scope list_scope.

Section WithScheme.
Context {F : Scheme} {L : Lawful F}.
Variable this : address.

Abbreviation State := (@State F).

(** The result handle [submitBid] stores has a cleartext of 0 or 1. *)
Lemma clear_result_bit (bid reserve : euint32) :
  let r := clear32 (select (or (gt bid reserve) (eq bid reserve))
                           (asEuint32 (uint32 1)) (asEuint32 (uint32 0))) in
  r = 0 \/ r = 1.
Proof.
  simpl. rewrite clear_result.
  destruct (clear32 reserve <=? clear32 bid); auto.
Qed.

(** X1: a successful submitBid changes nothing that belongs to another
    address: that address's stored result, bid flag and timestamp are as
    before, and so is the reserve price. *)
Theorem X1_submitBid_leaves_other_bidders_alone (s s' : State) msg
    encryptedBid proof (a : address) :
  submitBid this msg encryptedBid proof s = Returned tt s' ->
  a <> sender msg ->
  bidResults s' !! a = bidResults s !! a /\
  hasBid_at s' a = hasBid_at s a /\
  bidTimestamp_at s' a = bidTimestamp_at s a /\
  reservePrice s' = reservePrice s.
Proof.
  intros Hsub Hne.
  destruct (submitBid_inv this _ _ _ _ _ Hsub) as [bid Hbid].
  rewrite (submitBid_returns this _ _ _ _ _ Hbid) in Hsub.
  injection Hsub as <-.
  unfold hasBid_at, bidTimestamp_at. simpl.
  rewrite !lookup_insert_ne by congruence. auto.
Qed.

(** X2: nothing is ever taken back: through any number of later bids, by
    anyone, an address that has bid keeps its bid flag, every access grant
    stays in the access-control list, the events already emitted stay at the
    head of the log, and the reserve price stays the same. *)
Theorem X2_bids_grants_and_events_persist (s s' : State) (a : address) :
  evolves this s s' ->
  (hasBid_at s a = true -> hasBid_at s' a = true) /\
  acl s ⊆ acl s' /\
  emitted s `prefix_of` emitted s' /\
  reservePrice s' = reservePrice s.
Proof.
  induction 1 as [s|s s1 msg encryptedBid proof s' _ IH Hsub].
  - repeat split; auto.
  - destruct IH as (Hhas & Hacl & Hev & Hres).
    destruct (submitBid_inv this _ _ _ _ _ Hsub) as [bid Hbid].
    rewrite (submitBid_returns this _ _ _ _ _ Hbid) in Hsub.
    injection Hsub as <-. simpl. repeat split.
    + intros Ha. specialize (Hhas Ha). unfold hasBid_at in *. simpl.
      destruct (decide (sender msg = a)) as [->|Hne].
      * rewrite lookup_insert_eq. reflexivity.
      * rewrite lookup_insert_ne by exact Hne. exact Hhas.
    + intros x Hx. apply elem_of_app. left. apply elem_of_app. left.
      apply Hacl, Hx.
    + etransitivity; [exact Hev|]. apply prefix_app_r. reflexivity.
    + exact Hres.
Qed.

Lemma getBidTimestamp_returns (s : State) (user : address) :
  hasBid_at s user = true ->
  execute (getBidTimestamp user) s = (inr (bidTimestamp_at s user), s).
Proof.
  intros Hhas. unfold execute, getBidTimestamp, bind, gets, require.
  rewrite Hhas. reflexivity.
Qed.

Lemma hasUserBid_returns (s : State) (user : address) :
  execute (hasUserBid user) s = (inr (hasBid_at s user), s).
Proof. reflexivity. Qed.

(** X3: right after a successful submitBid, getBidTimestamp for the bidder
    returns the block timestamp of that call and hasUserBid returns true,
    both without changing the state; a later bid by somebody else does not
    change either answer. *)
Theorem X3_timestamp_of_the_latest_bid (s s1 s2 : State) msg encryptedBid proof
    other encryptedBid' proof' :
  submitBid this msg encryptedBid proof s = Returned tt s1 ->
  submitBid this other encryptedBid' proof' s1 = Returned tt s2 ->
  sender other <> sender msg ->
  execute (getBidTimestamp (sender msg)) s1 = (inr (timestamp msg), s1) /\
  execute (hasUserBid (sender msg)) s1 = (inr true, s1) /\
  execute (getBidTimestamp (sender msg)) s2 = (inr (timestamp msg), s2) /\
  execute (hasUserBid (sender msg)) s2 = (inr true, s2).
Proof.
  intros Hsub1 Hsub2 Hne.
  assert (Hs1 : hasBid_at s1 (sender msg) = true /\
                bidTimestamp_at s1 (sender msg) = timestamp msg).
  { destruct (submitBid_inv this _ _ _ _ _ Hsub1) as [bid Hbid].
    rewrite (submitBid_returns this _ _ _ _ _ Hbid) in Hsub1.
    injection Hsub1 as <-. unfold hasBid_at, bidTimestamp_at. simpl.
    rewrite !lookup_insert_eq. auto. }
  destruct Hs1 as [Hhas Hts].
  assert (Hs2 : hasBid_at s2 (sender msg) = hasBid_at s1 (sender msg) /\
                bidTimestamp_at s2 (sender msg)
                = bidTimestamp_at s1 (sender msg)).
  { destruct (submitBid_inv this _ _ _ _ _ Hsub2) as [bid Hbid].
    rewrite (submitBid_returns this _ _ _ _ _ Hbid) in Hsub2.
    injection Hsub2 as <-. unfold hasBid_at, bidTimestamp_at. simpl.
    rewrite !lookup_insert_ne by exact Hne. auto. }
  destruct Hs2 as [Hhas2 Hts2].
  rewrite Hhas in Hhas2. rewrite Hts in Hts2.
  rewrite !getBidTimestamp_returns by assumption.
  rewrite !hasUserBid_returns, Hts, Hts2, Hhas, Hhas2. auto.
Qed.

(** A non-bidder is refused. *)
Lemma getBidTimestamp_reverts (s : State) (user : address) :
  hasBid_at s user = false ->
  execute (getBidTimestamp user) s = (inl "No bid submitted", s).
Proof.
  intros Hno. unfold execute, getBidTimestamp, bind, gets, require.
  rewrite Hno. reflexivity.
Qed.

Lemma results_ok_reachable (s : State) : reachable this s -> results_ok this s.
Proof.
  induction 1 as [|s msg encryptedBid proof s' _ IH Hsub].
  - split.
    + intros a Ha. unfold hasBid_at in Ha. simpl in Ha.
      rewrite lookup_empty in Ha. discriminate.
    + intros h u Hin. simpl in Hin. apply list_elem_of_singleton in Hin.
      injection Hin as _ ->. auto.
  - destruct IH as [IHres IHacl].
    destruct (submitBid_inv this _ _ _ _ _ Hsub) as [bid Hbid].
    rewrite (submitBid_returns this _ _ _ _ _ Hbid) in Hsub.
    injection Hsub as <-.
    pose proof (clear_result_bit bid (reservePrice s)) as Hbit. simpl in Hbit.
    split.
    + intros a Ha. unfold hasBid_at in Ha. simpl in *.
      destruct (decide (sender msg = a)) as [<-|Hne].
      * eexists. rewrite lookup_insert_eq. split; [reflexivity|].
        split; [|split; [|exact Hbit]].
        -- apply elem_of_app. left. apply elem_of_app. right.
           apply list_elem_of_singleton. reflexivity.
        -- apply elem_of_app. right. apply list_elem_of_singleton. reflexivity.
      * rewrite lookup_insert_ne in Ha by exact Hne.
        destruct (IHres a Ha) as (r & Hr & Hthis & Hown & Hrbit).
        exists r. rewrite lookup_insert_ne by exact Hne.
        split; [exact Hr|]. split; [|split; [|exact Hrbit]].
        -- apply elem_of_app. left. apply elem_of_app. left. exact Hthis.
        -- apply elem_of_app. left. apply elem_of_app. left. exact Hown.
    + intros h u Hin. simpl in Hin.
      apply elem_of_app in Hin as [Hin|Hin].
      * apply elem_of_app in Hin as [Hin|Hin].
        -- apply IHacl, Hin.
        -- apply list_elem_of_singleton in Hin. injection Hin as _ ->. auto.
      * apply list_elem_of_singleton in Hin. injection Hin as -> _.
        right. rewrite clear_toBytes32. exact Hbit.
Qed.

(** X4: in every state of the deployed contract, every address that has bid
    can fetch its result handle and decrypt it, and what it decrypts is 0 or
    1: the result of its latest bid stays readable however many bids others
    make. *)
Theorem X4_every_bidder_can_decrypt_its_result (s : State) msg :
  reachable this s ->
  hasBid_at s (sender msg) = true ->
  exists handle r,
    execute (getMyResult msg) s = (inr handle, s) /\
    userDecrypt this s (sender msg) handle = Some r /\
    (r = 0 \/ r = 1).
Proof.
  intros Hs Hhas.
  destruct (results_ok_reachable s Hs) as [Hres _].
  destruct (Hres (sender msg) Hhas) as (r & Hr & Hthis & Hown & Hbit).
  exists (toBytes32 r), (clear32 r). split; [|split; [|exact Hbit]].
  - unfold execute, getMyResult, bind, gets, require, bidResults_at.
    rewrite Hhas. simpl. rewrite Hr. reflexivity.
  - unfold userDecrypt.
    rewrite !bool_decide_eq_true_2 by assumption. simpl.
    rewrite clear_toBytes32. reflexivity.
Qed.

(** X5: the reserve price stays hidden: in every state of the deployed
    contract the user decryption of the reserve price's handle is refused to
    every address but the contract's own. *)
Theorem X5_reserve_price_is_never_decryptable (s : State) (user : address) :
  reachable this s ->
  user <> this ->
  userDecrypt this s user (toBytes32 (reservePrice s)) = None.
Proof.
  intros Hs Hne.
  destruct (results_ok_reachable s Hs) as [_ Hacl].
  unfold userDecrypt.
  destruct (bool_decide ((toBytes32 (reservePrice s), user) ∈ acl s)) eqn:Hin;
    [|rewrite andb_false_r; reflexivity].
  apply bool_decide_eq_true_1 in Hin.
  destruct (Hacl _ _ Hin) as [Hu|Hbit]; [congruence|].
  rewrite clear_toBytes32, (reservePrice_reachable this s Hs) in Hbit. lia.
Qed.

(** X20: the event log and the storage agree: in every state of the
    deployed contract, the timestamp stored for an address is the one of
    its latest BidSubmitted event, and an address without such an event has
    no bid. *)
Theorem X20_stored_timestamp_is_the_latest_event (s : State) (a : address) :
  reachable this s ->
  last (bid_times a (emitted s))
  = if hasBid_at s a then Some (bidTimestamp_at s a) else None.
Proof.
  induction 1 as [|s msg encryptedBid proof s' _ IH Hsub].
  - reflexivity.
  - destruct (submitBid_inv this _ _ _ _ _ Hsub) as [bid Hbid].
    rewrite (submitBid_returns this _ _ _ _ _ Hbid) in Hsub.
    injection Hsub as <-.
    unfold hasBid_at, bidTimestamp_at, bid_times in *. simpl.
    rewrite omap_app. simpl.
    destruct (decide (sender msg = a)) as [->|Hne].
    + rewrite !lookup_insert_eq. simpl. apply last_snoc.
    + rewrite !lookup_insert_ne by exact Hne. rewrite app_nil_r. exact IH.
Qed.

End WithScheme.

End SecretAuctionMore.

(** ** More about the page *)
Module AuctionPageMore.
Import JS AuctionPage AuctionPageFacts PageReadings.
Local Open Scope list_scope.

(** *** Strings *)

Lemma append_cons (c : ascii) (s t : string) :
  String c s +:+ t = String c (s +:+ t).
Proof. reflexivity. Qed.

Lemma append_nil (t : string) : "" +:+ t = t.
Proof. reflexivity. Qed.

Lemma prefix_spec (s1 s2 : string) :
  String.prefix s1 s2 = true <-> exists post, s2 = s1 +:+ post.
Proof.
  revert s2. induction s1 as [|c s1 IH]; intros s2.
  - split; [intros _; exists s2; reflexivity | destruct s2; reflexivity].
  - destruct s2 as [|c2 s2]; simpl.
    + split; [discriminate | intros [post H]; discriminate].
    + destruct (ascii_dec c c2) as [->|Hne].
      * rewrite IH. split; intros [post H]; exists post.
        -- rewrite append_cons. congruence.
        -- rewrite append_cons in H. congruence.
      * split; [discriminate|]. intros [post H].
        rewrite append_cons in H. congruence.
Qed.

Lemma includes_nil (sub : string) :
  includes "" sub = String.prefix sub "" || false.
Proof. reflexivity. Qed.

Lemma includes_cons (c : ascii) (s sub : string) :
  includes (String c s) sub = String.prefix sub (String c s) || includes s sub.
Proof. reflexivity. Qed.

Lemma includes_spec (s sub : string) :
  includes s sub = true <-> exists pre post, s = pre +:+ sub +:+ post.
Proof.
  induction s as [|c s IH].
  - rewrite includes_nil, orb_false_r, prefix_spec. split.
    + intros [post H]. exists "", post. exact H.
    + intros (pre & post & H).
      destruct pre; [exists post; exact H|rewrite append_cons in H; discriminate].
  - rewrite includes_cons, orb_true_iff, prefix_spec, IH. split.
    + intros [[post H]|(pre & post & H)].
      * exists "", post. exact H.
      * exists (String c pre), post. rewrite append_cons. congruence.
    + intros ([|c' pre] & post & H).
      * left. exists post. exact H.
      * right. exists pre, post. rewrite append_cons in H. congruence.
Qed.

(** X19: an error is classified as transient exactly when it has a message
    and the characters 500 occur somewhere in that message; an error without
    a message is never transient. *)
Theorem X19_transient_iff_message_contains_500 (e : option string) :
  transient e = true <->
  exists m pre post, e = Some m /\ m = pre +:+ "500" +:+ post.
Proof.
  destruct e as [m|]; simpl.
  - rewrite includes_spec. split.
    + intros (pre & post & H). exists m, pre, post. auto.
    + intros (m' & pre & post & Hm & H). injection Hm as <-. eauto.
  - split; [discriminate|]. intros (m & pre & post & Hm & _). discriminate.
Qed.

Lemma or_else_nonempty (e : option string) (d : string) :
  d <> "" -> or_else e d <> "".
Proof.
  intros Hd. unfold or_else. destruct e as [m|]; [|exact Hd].
  destruct (decide (m = "")); assumption.
Qed.

(** *** The countdown *)



(** *** One decryption attempt, call by call *)

Ltac no_decrypt :=
  let req := fresh "req" in
  let Hin := fresh "Hin" in
  intros req Hin;
  repeat (apply elem_of_cons in Hin as [Hin|Hin]; [discriminate|]);
  apply elem_of_nil in Hin; destruct Hin.

Ltac close_trace :=
  eexists;
  split; [rewrite <- ?app_assoc; reflexivity|];
  split; [reflexivity|]; split; [reflexivity|];
  split; [reflexivity|];
  split; [first [reflexivity
                |eexists _, _, _; split; [reflexivity|];
                 split; [rewrite ?length_app; simpl; eassumption
                        |reflexivity]]|];
  rewrite <- ?app_assoc.

Ltac in_list :=
  repeat first [apply list_elem_of_here | apply list_elem_of_further].

(** One attempt, call by call *)
Lemma decryptAttempt_trace env a w :
  exists evs,
    log (decryptAttempt env a w).2 = log w ++ evs /\
    timers (decryptAttempt env a w).2 = timers w /\
    timeout_total evs = 0 /\
    signer_calls evs = 1%nat /\
    match (decryptAttempt env a w).1 with
    | Ok _ =>
      exists v l req,
        log (decryptAttempt env a w).2 = l ++ [EvUserDecrypt req] /\
        userDecrypt env (length l) req = Ok v /\
        page (decryptAttempt env a w).2
          = setCanDecrypt false (setResult (Some v) (page w))
    | Throw _ => page (decryptAttempt env a w).2 = page w
    end /\
    (forall req, EvUserDecrypt req ∈ evs ->
                 request_is_authorized env a w evs req).
Proof.
  unfold decryptAttempt. run_monad.
  next_call; [|close_trace; no_decrypt].
  next_call; [|close_trace; no_decrypt].
  next_call; [|close_trace; no_decrypt].
  next_call; [|close_trace; no_decrypt].
  next_call; [|close_trace; no_decrypt].
  rewrite !length_app in *. simpl in *.
  assert (Hauth : forall evs req,
    EvCreateEIP712 (publicKey a2) [CONTRACT_ADDRESS env]
      (pretty (Date_now env (length (log w) + 1 + 1 + 1) `div` 1000)) "10"
      ∈ evs ->
    EvSignTypedData (domain a3) (delete "EIP712Domain" (types a3)) (message a3)
      ∈ evs ->
    req = mkDecryptRequest [(a1, CONTRACT_ADDRESS env)] (privateKey a2)
            (publicKey a2) (replace "0x" "" a4) [CONTRACT_ADDRESS env] a
            (pretty (Date_now env (length (log w) + 1 + 1 + 1) `div` 1000))
            "10" ->
    request_is_authorized env a w evs req).
  { intros evs req H1 H2 ->. unfold request_is_authorized.
    eexists a1, a2, a3, a4, _, _, _.
    split; [exact Hcall0|]. split; [exact Hcall1|].
    split; [exact Hcall2|]. split; [exact Hcall3|].
    split; [exact H1|]. split; [exact H2|reflexivity]. }
  next_call; close_trace;
    (intros req Hin;
     repeat (apply elem_of_cons in Hin as [Hin|Hin]; [discriminate|]);
     apply elem_of_cons in Hin as [Hin|Hin];
     [|apply elem_of_nil in Hin; destruct Hin];
     injection Hin as ->; apply Hauth; [in_list | in_list | reflexivity]).
Qed.

Ltac blame :=
  let H := fresh "H" in
  intros H; injection H as ->; unfold last_call_threw; simpl;
  eexists _, _; split; [reflexivity|]; simpl; assumption.

(** An attempt throws null or undefined only when the last call it made
    did. *)
Lemma decryptAttempt_blame env a w n :
  (decryptAttempt env a w).1 = Throw (ThrowNullish n) ->
  last_call_threw env (decryptAttempt env a w).2 n.
Proof.
  unfold decryptAttempt. run_monad.
  do 6 (next_call; [|blame]).
  discriminate.
Qed.


(** *** The handlers seen whole *)

Lemma timeout_total_app l1 l2 :
  timeout_total (l1 ++ l2) = timeout_total l1 + timeout_total l2.
Proof.
  unfold timeout_total. induction l1 as [|ev l1 IH]; simpl; [reflexivity|].
  rewrite IH. lia.
Qed.

Lemma backoff_budget_step retryCount :
  (retryCount < 3)%nat ->
  backoff_budget retryCount =
  (Z.of_nat retryCount + 1) * 10 * 1000 + backoff_budget (retryCount + 1).
Proof.
  intros Hlt.
  destruct retryCount as [|[|[|n]]]; [reflexivity | reflexivity | reflexivity | lia].
Qed.

Lemma backoff_budget_nonneg retryCount : 0 <= backoff_budget retryCount.
Proof.
  destruct retryCount as [|[|[|n]]]; [vm_compute; discriminate ..|].
  unfold backoff_budget. replace (3 - S (S (S n)))%nat with 0%nat by lia.
  simpl. lia.
Qed.

Lemma events_since_app w w' evs :
  log w' = log w ++ evs -> events_since w w' = evs.
Proof. intros H. unfold events_since. rewrite H. apply drop_app_length. Qed.

(** A run of [handleDecryptResult] seen whole *)
Lemma handleDecryptResult_run env :
  forall retryCount w,
    exists evs,
      log (handleDecryptResult env retryCount w).2 = log w ++ evs /\
      timers (handleDecryptResult env retryCount w).2 = timers w /\
      0 <= timeout_total evs <= backoff_budget retryCount /\
      (connected env = true ->
       decrypt_outcome env w (handleDecryptResult env retryCount w)).
Proof.
  apply (retry_induction
           (fun retryCount => forall w, exists evs,
      log (handleDecryptResult env retryCount w).2 = log w ++ evs /\
      timers (handleDecryptResult env retryCount w).2 = timers w /\
      0 <= timeout_total evs <= backoff_budget retryCount /\
      (connected env = true ->
       decrypt_outcome env w (handleDecryptResult env retryCount w)))).
  intros retryCount IH w.
  pose proof (backoff_budget_nonneg retryCount) as Hbudget.
  destruct (connected env) eqn:Hc.
  2:{ rewrite (handleDecryptResult_not_connected _ _ _ Hc). simpl.
      exists []. rewrite app_nil_r.
      repeat split; auto; try discriminate; simpl; lia. }
  apply connected_address in Hc as [Hr [a Ha]].
  rewrite (handleDecryptResult_unfold env retryCount w a Hr Ha).
  destruct (decryptAttempt_trace env a (attemptStart w))
    as (evs & Hlog & Htimers & Htime & _ & Hpage & _).
  pose proof (decryptAttempt_blame env a (attemptStart w)) as Hblame.
  destruct (decryptAttempt env a (attemptStart w)) as [[[]|[n|e]] w1];
    simpl in Hlog, Htimers, Hpage, Hblame.
  - exists evs. simpl. rewrite Htime. repeat split; auto; try lia.
    intros _. left. split; [reflexivity|].
    destruct Hpage as (v & l & req & Hl & Hv & Hp). exists v, l, req.
    simpl. split; [exact Hl|]. split; [exact Hv|]. rewrite Hp.
    destruct (page w); reflexivity.
  - exists evs. simpl. rewrite Htime. repeat split; auto; try lia.
    intros _. right. right. exists n.
    split; [apply Hblame; reflexivity|]. split; [reflexivity|].
    simpl. rewrite Hpage. destruct (page w); reflexivity.
  - destruct (is_retryable e retryCount) eqn:Hretry.
    + apply is_retryable_true in Hretry as [_ Hlt].
      destruct (IH Hlt (retryStart retryCount w1))
        as (evs2 & Hlog2 & Htimers2 & Htime2 & Hout2).
      destruct (handleDecryptResult env (retryCount + 1)
                  (retryStart retryCount w1)) as [r w3].
      simpl in *.
      exists (evs ++ [EvSetTimeout ((Z.of_nat retryCount + 1) * 10 * 1000)]
                  ++ evs2).
      split; [rewrite Hlog2, Hlog, <- !app_assoc; reflexivity|].
      split; [congruence|].
      split.
      * rewrite !timeout_total_app, Htime,
          (backoff_budget_step retryCount Hlt).
        simpl. lia.
      * intros _.
        destruct (Hout2 eq_refl)
          as [[Hres (v & l & req & Hl & Hreq & Hv)]
             |[[Hres (m & Hm & Hv)]|(n & Hn & Hres & Hv)]];
          simpl in Hres, Hv; subst r.
        -- left. split; [reflexivity|]. exists v, l, req. simpl.
           split; [exact Hl|]. split; [exact Hreq|]. rewrite Hv, Hpage.
           destruct (page w); reflexivity.
        -- right. left. split; [reflexivity|]. exists m.
           split; [exact Hm|]. simpl. rewrite Hv, Hpage.
           destruct (page w); reflexivity.
        -- right. right. exists n. split; [exact Hn|].
           split; [reflexivity|]. simpl. rewrite Hv, Hpage.
           destruct (page w); reflexivity.
    + exists evs. simpl. rewrite Htime. repeat split; auto; try lia.
      intros _. right. left. split; [reflexivity|].
      exists (or_else e "Failed to decrypt result").
      split; [apply or_else_nonempty; discriminate|].
      simpl. rewrite Hpage. destruct (page w); reflexivity.
Qed.

Ltac next_call_in H :=
  match type of H with
  | context [match ?r with Ok _ => _ | Throw _ => _ end] =>
    let a := fresh "a" in
    let e := fresh "e" in
    let Hc := fresh "Hcall" in
    destruct r as [a|e] eqn:Hc; simpl in H
  end.

Ltac no_interval :=
  let Hin := fresh "Hin" in
  intros Hin;
  repeat (apply elem_of_cons in Hin as [Hin|Hin]; [discriminate|]);
  apply elem_of_nil in Hin; destruct Hin.

Ltac guard_fail :=
  exists (@nil Event); simpl; rewrite app_nil_r;
  split; [reflexivity|]; right; left; split; [reflexivity|]; eexists;
  (split; [|split; [left; reflexivity
                   |split; [reflexivity|apply not_elem_of_nil]]]);
  discriminate.

(** The [catch] block of [handleSubmitBid], reached after the calls
    [evs] *)
Ltac submit_caught Hrw w :=
  match goal with
  | e : thrown, Hcall : _ = Throw ?e' |- _ =>
    let n := fresh "n" in
    let m := fresh "m" in
    destruct e as [n|m]; simpl in Hrw;
    match goal with rw : (Res unit * World)%type |- _ => subst rw end;
    simpl; eexists;
    (split; [rewrite <- ?app_assoc; reflexivity|]);
    [ right; right; exists n;
      split; [unfold last_call_threw; simpl; eexists _, _;
              split; [reflexivity|]; simpl; assumption|];
      split; [reflexivity|];
      split; [destruct (page w); reflexivity|];
      split; [reflexivity|no_interval]
    | right; left; split; [reflexivity|];
      exists (or_else m "Failed to submit bid");
      split; [apply or_else_nonempty; discriminate|];
      split; [right; destruct (page w); reflexivity|];
      split; [reflexivity|no_interval] ]
  end.

(** [handleSubmitBid] seen whole *)
Lemma handleSubmitBid_run env w :
  exists evs,
    log (handleSubmitBid env w).2 = log w ++ evs /\
    submit_outcome env w evs (handleSubmitBid env w).
Proof.
  unfold submit_outcome.
  remember (handleSubmitBid env w) as rw eqn:Hrw.
  unfold handleSubmitBid in Hrw.
  destruct (fhevmInstance env && walletClient env); [|subst rw; guard_fail].
  destruct (address env) as [a|]; [|subst rw; guard_fail].
  unfold try_catch_finally, message_of, bind, call, update, read,
    startInterval, ret, throw, on_page in Hrw; simpl in Hrw.
  destruct (is_empty (bidAmount (page w))
            || le_zero (parseFloat env (bidAmount (page w))));
    [subst rw; guard_fail|].
  destruct (is_empty (CONTRACT_ADDRESS env)); [subst rw; guard_fail|].
  simpl in Hrw.
  next_call_in Hrw; [|submit_caught Hrw w].
  next_call_in Hrw; [|submit_caught Hrw w].
  next_call_in Hrw; [|submit_caught Hrw w].
  next_call_in Hrw; [|submit_caught Hrw w].
  subst rw; simpl. eexists. rewrite <- !app_assoc.
  split; [reflexivity|]. left. split; [reflexivity|].
  exists a, a0, a2. split; [reflexivity|]. split; [reflexivity|].
  split; [destruct (page w); reflexivity | reflexivity].
Qed.

(** *** Clicks, and what holds between them *)

Lemma submitEnabled_inv p :
  submitEnabled p = true ->
  hasBidSubmitted p = false /\ isSubmitting p = false /\
  is_empty (bidAmount p) = false.
Proof.
  unfold submitEnabled, bidFormVisible.
  destruct (hasBidSubmitted p), (isSubmitting p), (is_empty (bidAmount p));
    simpl; intros H; try discriminate; auto.
Qed.

Lemma decryptEnabled_inv p :
  decryptEnabled p = true ->
  canDecrypt p = true /\ result p = None /\ isDecrypting p = false.
Proof.
  unfold decryptEnabled, decryptVisible.
  destruct (canDecrypt p), (isDecrypting p), (result p);
    simpl; intros H; try discriminate; auto.
Qed.

(** The outcome of a click on the submit button *)
Lemma submit_click env w :
  submitEnabled (page w) = true ->
  ((handleSubmitBid env w).1 = Ok tt /\
   page (step env ClickSubmit w) =
     setCountdown 10
       (setBidAmount "" (setHasBidSubmitted true (setError None (page w)))) /\
   timers (step env ClickSubmit w) = S (timers w)) \/
  ((handleSubmitBid env w).1 = Ok tt /\
   exists m, m <> "" /\
             page (step env ClickSubmit w) = setError (Some m) (page w) /\
             timers (step env ClickSubmit w) = timers w) \/
  (exists n, last_call_threw env (handleSubmitBid env w).2 n /\
             (handleSubmitBid env w).1
               = Throw (Error (typeErrorMessage env n)) /\
             page (step env ClickSubmit w) = setError None (page w) /\
             timers (step env ClickSubmit w) = timers w).
Proof.
  intros Hen. simpl. rewrite Hen.
  apply submitEnabled_inv in Hen as (_ & Hsub & _).
  destruct (handleSubmitBid_run env w)
    as (evs & _ & [(Hres & a & enc & tx & _ & _ & Hpage & Ht)
                  |[(Hres & m & Hm & Hpage & Ht & _)
                   |(n & Hn & Hres & Hpage & Ht & _)]]).
  - left. split; [exact Hres|]. split; [|exact Ht]. rewrite Hpage.
    destruct (page w); simpl in *; subst; reflexivity.
  - right. left. split; [exact Hres|]. exists m. split; [exact Hm|].
    split; [|exact Ht].
    destruct Hpage as [Hpage|Hpage]; rewrite Hpage; [reflexivity|].
    destruct (page w); simpl in *; subst; reflexivity.
  - right. right. exists n. split; [exact Hn|]. split; [exact Hres|].
    split; [|exact Ht]. rewrite Hpage.
    destruct (page w); simpl in *; subst; reflexivity.
Qed.

(** The outcome of a click on the decrypt button *)
Lemma decrypt_click env w :
  decryptEnabled (page w) = true ->
  timers (step env ClickDecrypt w) = timers w /\
  (((handleDecryptResult env 0 w).1 = Ok tt /\
    exists v l req,
      log (handleDecryptResult env 0 w).2 = l ++ [EvUserDecrypt req] /\
      userDecrypt env (length l) req = Ok v /\
      page (step env ClickDecrypt w) =
        setCanDecrypt false
          (setResult (Some v) (setError None (page w)))) \/
   ((handleDecryptResult env 0 w).1 = Ok tt /\
    exists m, m <> "" /\
              page (step env ClickDecrypt w) = setError (Some m) (page w)) \/
   (exists n, last_call_threw env (handleDecryptResult env 0 w).2 n /\
              (handleDecryptResult env 0 w).1
                = Throw (Error (typeErrorMessage env n)) /\
              page (step env ClickDecrypt w) = setError None (page w))).
Proof.
  intros Hen. simpl. rewrite Hen.
  apply decryptEnabled_inv in Hen as (_ & _ & Hdec).
  destruct (handleDecryptResult_run env 0 w) as (evs & _ & Ht & _ & Hout).
  split; [exact Ht|].
  destruct (connected env) eqn:Hc.
  - destruct (Hout eq_refl)
      as [[Hres (v & l & req & Hl & Hreq & Hv)]
         |[[Hres (m & Hm & Hv)]|(n & Hn & Hres & Hv)]].
    + left. split; [exact Hres|]. exists v, l, req.
      split; [exact Hl|]. split; [exact Hreq|]. rewrite Hv.
      destruct (page w); simpl in *; subst; reflexivity.
    + right. left. split; [exact Hres|]. exists m. split; [exact Hm|].
      rewrite Hv. destruct (page w); simpl in *; subst; reflexivity.
    + right. right. exists n. split; [exact Hn|]. split; [exact Hres|].
      rewrite Hv. destruct (page w); simpl in *; subst; reflexivity.
  - right. left.
    rewrite (handleDecryptResult_not_connected _ _ _ Hc).
    split; [reflexivity|]. exists "Please connect your wallet first".
    split; [discriminate|]. reflexivity.
Qed.



(** X6: when what the calls throw is null, undefined, or a value whose
    message is a string or absent, a click on the enabled submit button
    ends in one of three ways. The bid is accepted: the form gives way to a countdown of 10, the input
    is emptied, the error cleared, one interval started. Or a non-empty
    error is shown and everything else is as it was: the typed amount is
    kept and the button stays enabled. Or the last call rejected with null
    or undefined: the catch block throws a TypeError on reading its message,
    the handler rejects, and the page is left with the error cleared and
    nothing shown, the amount kept and the button enabled. *)
Theorem X6_submit_click_accepts_or_reports env w :
  submitEnabled (page w) = true ->
  let w' := step env ClickSubmit w in
  ((handleSubmitBid env w).1 = Ok tt /\
   page w' =
     setCountdown 10
       (setBidAmount "" (setHasBidSubmitted true (setError None (page w)))) /\
   timers w' = S (timers w) /\
   bidFormVisible (page w') = false /\
   countdownVisible (page w') = true)
  \/
  ((handleSubmitBid env w).1 = Ok tt /\
   exists m,
     m <> "" /\
     page w' = setError (Some m) (page w) /\
     timers w' = timers w /\
     submitEnabled (page w') = true /\
     errorVisible (page w') = true)
  \/
  (exists n,
     last_call_threw env w' n /\
     (handleSubmitBid env w).1 = Throw (Error (typeErrorMessage env n)) /\
     page w' = setError None (page w) /\
     timers w' = timers w /\
     submitEnabled (page w') = true /\
     errorVisible (page w') = false).
Proof.
  intros Hen w'. subst w'.
  destruct (submit_click env w Hen)
    as [(Hres & Hpage & Ht)
       |[(Hres & m & Hm & Hpage & Ht)|(n & Hn & Hres & Hpage & Ht)]].
  - left. rewrite Hpage. repeat split; auto.
  - right. left. split; [exact Hres|]. exists m. rewrite Hpage.
    repeat split; auto.
    unfold errorVisible. simpl. destruct m; [contradiction|reflexivity].
  - right. right. exists n.
    split; [simpl; rewrite Hen; exact Hn|].
    rewrite Hpage. repeat split; auto.
Qed.



(** X9: when what the calls throw is null, undefined, or a value whose
    message is a string or absent, a click on the enabled decrypt button
    ends in one of three ways. The value the last user decryption answered is stored as the result as
    it came from the relayer SDK, the error cleared and decryption closed,
    and no call follows; the page then shows You Won
    exactly when that value is the number 1, and Bid Too Low for anything
    else, a bigint 1 included. Or a non-empty error is shown and nothing
    else has changed, so that the button is enabled again. Or the last
    call threw null or undefined: the handler rejects with the TypeError of its catch
    block, no result and no error are shown, and the button is enabled
    again. The click starts no interval and stops none. *)
Theorem X9_decrypt_click_resolves_or_reports env w :
  decryptEnabled (page w) = true ->
  let w' := step env ClickDecrypt w in
  timers w' = timers w /\
  ((exists v l req,
      (handleDecryptResult env 0 w).1 = Ok tt /\
      log w' = l ++ [EvUserDecrypt req] /\
      userDecrypt env (length l) req = Ok v /\
      page w' = setCanDecrypt false
                  (setResult (Some v) (setError None (page w))) /\
      shownOutcome (page w') = Some (if is_number_one v then Won else Lost) /\
      decryptVisible (page w') = false /\
      tryAgainVisible (page w') = true)
   \/
   (exists m,
      (handleDecryptResult env 0 w).1 = Ok tt /\
      m <> "" /\
      page w' = setError (Some m) (page w) /\
      decryptEnabled (page w') = true /\
      errorVisible (page w') = true /\
      shownOutcome (page w') = None)
   \/
   (exists n,
      last_call_threw env w' n /\
      (handleDecryptResult env 0 w).1
        = Throw (Error (typeErrorMessage env n)) /\
      page w' = setError None (page w) /\
      decryptEnabled (page w') = true /\
      errorVisible (page w') = false /\
      shownOutcome (page w') = None)).
Proof.
  intros Hen w'. subst w'.
  pose proof (decryptEnabled_inv _ Hen) as (_ & Hnone & _).
  destruct (decrypt_click env w Hen)
    as [Ht [(Hres & v & l & req & Hl & Hreq & Hpage)
           |[(Hres & m & Hm & Hpage)|(n & Hn & Hres & Hpage)]]].
  - split; [exact Ht|]. left. exists v, l, req.
    split; [exact Hres|].
    split; [simpl; rewrite Hen; exact Hl|]. split; [exact Hreq|].
    rewrite Hpage. repeat split.
  - split; [exact Ht|]. right. left. exists m. rewrite Hpage.
    repeat split; auto.
    + unfold errorVisible. simpl. destruct m; [contradiction|reflexivity].
    + unfold shownOutcome. simpl. rewrite Hnone. reflexivity.
  - split; [exact Ht|]. right. right. exists n.
    split; [simpl; rewrite Hen; exact Hn|].
    rewrite Hpage. repeat split; auto.
    unfold shownOutcome. simpl. rewrite Hnone. reflexivity.
Qed.

(** X10: an attempt that fails with an error that is not transient is not
    retried, at any retry count: the run ends after this one attempt
    without having waited, and shows the error's message, or
    'Failed to decrypt result' when it has none. *)
Theorem X10_other_errors_are_not_retried env retryCount w a e w1 :
  fhevmInstance env && walletClient env = true ->
  address env = Some a ->
  decryptAttempt env a (attemptStart w) = (Throw (ErrorValue e), w1) ->
  transient e = false ->
  handleDecryptResult env retryCount w = (Ok tt, giveUp e w1) /\
  timeout_total (events_since w (giveUp e w1)) = 0 /\
  signer_calls (events_since w (giveUp e w1)) = 1%nat /\
  error (page (giveUp e w1)) = Some (or_else e "Failed to decrypt result") /\
  result (page (giveUp e w1)) = result (page w) /\
  canDecrypt (page (giveUp e w1)) = canDecrypt (page w).
Proof.
  intros Hr Ha Hatt Htr.
  rewrite (handleDecryptResult_unfold env retryCount w a Hr Ha), Hatt.
  unfold is_retryable. rewrite Htr. simpl.
  destruct (decryptAttempt_trace env a (attemptStart w))
    as (evs & Hlog & _ & Htime & Hsig & Hpage & _).
  rewrite Hatt in Hlog, Hpage. simpl in Hlog, Hpage.
  assert (Hev : events_since w (giveUp e w1) = evs)
    by (apply events_since_app; exact Hlog).
  rewrite Hev. simpl. rewrite Hpage. repeat split; auto.
Qed.

Lemma backoff_budget_le retryCount : backoff_budget retryCount <= 60000.
Proof.
  destruct retryCount as [|[|[|n]]]; [vm_compute; discriminate ..|].
  unfold backoff_budget. replace (3 - S (S (S n)))%nat with 0%nat by lia.
  simpl. lia.
Qed.

(** X11: the retries of one run wait at most (r + 1) x 10 seconds for each
    retry count r from the one the run was entered with up to 2: at most
    60 seconds for a click, and nothing from retry count 3 on. *)
Theorem X11_retries_wait_at_most_a_minute env retryCount w :
  let evs := events_since w (handleDecryptResult env retryCount w).2 in
  0 <= timeout_total evs <= backoff_budget retryCount /\
  backoff_budget retryCount <= 60000 /\
  backoff_budget 0 = 60000 /\
  backoff_budget (retryCount + 3) = 0.
Proof.
  intros evs. subst evs.
  destruct (handleDecryptResult_run env retryCount w)
    as (evs & Hlog & _ & Hbound & _).
  rewrite (events_since_app _ _ _ Hlog).
  split; [exact Hbound|]. split; [apply backoff_budget_le|].
  split; [reflexivity|].
  unfold backoff_budget.
  replace (3 - (retryCount + 3))%nat with 0%nat by lia. reflexivity.
Qed.



(** X13: a decryption request reaches the relayer only with the
    authorization signed for it in the same attempt: it pairs the handle the
    contract returned with the contract's address, carries the keypair
    generated in this attempt, the signature the wallet gave over the
    EIP-712 request created for that public key (its 0x removed, the domain
    type removed from the signed types), the user's address, the start time
    and a duration of 10 days. *)
Theorem X13_decrypt_request_matches_signed_authorization env a w req :
  EvUserDecrypt req ∈ events_since w (decryptAttempt env a w).2 ->
  request_is_authorized env a w (events_since w (decryptAttempt env a w).2)
                        req.
Proof.
  destruct (decryptAttempt_trace env a w) as (evs & Hlog & _ & _ & _ & _ & H).
  rewrite (events_since_app _ _ _ Hlog). apply H.
Qed.

End AuctionPageMore.

(** ** The guide's demo-mode handlers *)
Module DemoFlowFacts.
Import DemoMode DemoFlow.
Local Open Scope list_scope.

Lemma handleDecrypt_mocked u decrypt timedOut s :
  mocked s decrypt timedOut = true ->
  handleDecrypt u decrypt timedOut s
  = setIsDecrypting false (useMock u (setIsDecrypting true s)).
Proof.
  unfold mocked, falls_back, handleDecrypt, race. simpl.
  destruct (demoMode s) eqn:Hdemo; [|discriminate]. simpl.
  destruct timedOut; simpl.
  - intros _. reflexivity.
  - destruct decrypt as [v|e]; [discriminate|].
    destruct (bool_decide (e = Some "TIMEOUT")); simpl; [reflexivity|].
    intros ->. rewrite Hdemo. reflexivity.
Qed.

Lemma handleDecrypt_real u decrypt timedOut s :
  mocked s decrypt timedOut = false ->
  handleDecrypt u decrypt timedOut s
  = setIsDecrypting false
      match decrypt with
      | Ok v => setResult (Some v) s
      | Throw e => setError e s
      end.
Proof.
  unfold mocked, falls_back, handleDecrypt, race. simpl.
  destruct (demoMode s) eqn:Hdemo; simpl.
  - destruct timedOut; [discriminate|]. simpl.
    destruct decrypt as [v|e]; [reflexivity|].
    destruct (bool_decide (e = Some "TIMEOUT")); [discriminate|]. simpl.
    rewrite Hdemo. intros ->. reflexivity.
  - intros _. destruct decrypt as [v|e]; [reflexivity|].
    simpl. rewrite Hdemo. reflexivity.
Qed.

(** X14: in demo mode, a decryption that falls back after a confirmed
    submit of the plaintext v shows the mock result computed from v (1
    exactly when v is '888'), after a delay of two seconds and without an
    error, and removes the saved plaintext: a second fallback shows 0
    whatever v was. *)
Theorem X14_demo_fallback_uses_the_saved_plaintext_once u v
    decrypt timedOut decrypt' timedOut' s :
  demoMode s = true ->
  falls_back decrypt timedOut = true ->
  falls_back decrypt' timedOut' = true ->
  let s1 := (handleSubmit u v (Ok tt) (Ok tt) s).2 in
  let s2 := handleDecrypt u decrypt timedOut s1 in
  let s3 := handleDecrypt u decrypt' timedOut' s2 in
  canDecrypt s1 = true /\
  result s2 = Some (if bool_decide (v = "888") then 1 else 0) /\
  localStorage s2 = delete (lastGuess_key u) (localStorage s) /\
  error s2 = error s /\
  isDecrypting s2 = false /\
  delays s2 = delays s ++ [2000] /\
  result s3 = Some 0.
Proof.
  intros Hdemo Hfb Hfb' s1 s2 s3.
  assert (Hs1 : s1 = setCanDecrypt true
                       (mkGuide (demoMode s) (isDecrypting s) (canDecrypt s)
                                (result s) (error s)
                                (savePlaintext u v (localStorage s))
                                (delays s)))
    by (subst s1; unfold handleSubmit; rewrite Hdemo; reflexivity).
  assert (Hd1 : demoMode s1 = true) by (rewrite Hs1; exact Hdemo).
  assert (Hs2 : s2 = setIsDecrypting false (useMock u (setIsDecrypting true s1)))
    by (apply handleDecrypt_mocked; unfold mocked; rewrite Hd1; exact Hfb).
  assert (Hd2 : demoMode s2 = true) by (rewrite Hs2; exact Hd1).
  assert (Hs3 : s3 = setIsDecrypting false (useMock u (setIsDecrypting true s2)))
    by (apply handleDecrypt_mocked; unfold mocked; rewrite Hd2; exact Hfb').
  clearbody s1 s2 s3. subst s3 s2 s1.
  unfold useMock, mockFromStorage, savePlaintext, calculateMockResult. simpl.
  rewrite lookup_insert_eq, lookup_delete_eq, delete_insert_eq.
  rewrite (bool_decide_eq_false_2 (None = Some _)) by discriminate.
  repeat split.
  f_equal. unfold JS.String_of, SECRET_NUMBER.
  change (pretty 888%N) with "888".
  destruct (decide (v = "888")) as [->|Hne].
  - rewrite !bool_decide_eq_true_2; reflexivity.
  - rewrite !bool_decide_eq_false_2; [reflexivity|exact Hne|congruence].
Qed.


Lemma lastGuess_key_inj u u' : lastGuess_key u = lastGuess_key u' -> u = u'.
Proof. unfold lastGuess_key. intros H. injection H. auto. Qed.

(** X16: the guide's handlers run for one user read and write only that
    user's saved plaintext: whatever the mode and the outcome, the record
    of every other address is as before. *)
Theorem X16_saved_plaintexts_are_per_user u u' v submit wait decrypt timedOut s :
  u <> u' ->
  localStorage (handleSubmit u v submit wait s).2 !! lastGuess_key u'
    = localStorage s !! lastGuess_key u' /\
  localStorage (handleDecrypt u decrypt timedOut s) !! lastGuess_key u'
    = localStorage s !! lastGuess_key u'.
Proof.
  intros Hne.
  assert (Hk : lastGuess_key u <> lastGuess_key u')
    by (intros H; apply Hne, lastGuess_key_inj, H).
  split.
  - unfold handleSubmit.
    destruct submit as [[]|e]; [|reflexivity].
    destruct wait as [[]|e]; [|reflexivity].
    destruct (demoMode s); [|reflexivity].
    simpl. unfold savePlaintext. apply lookup_insert_ne. exact Hk.
  - destruct (mocked s decrypt timedOut) eqn:Hm.
    + rewrite (handleDecrypt_mocked _ _ _ _ Hm). simpl.
      apply lookup_delete_ne. exact Hk.
    + rewrite (handleDecrypt_real _ _ _ _ Hm).
      destruct decrypt; reflexivity.
Qed.

End DemoFlowFacts.

Module PageInitFacts.
Import PageInit.

(** X17: when what the SDK throws is null, undefined, or a value whose
    message is a string or absent, a run of the initialisation effect for a
    connected wallet without an instance ends in one of three ways. The instance is stored, the
    error cleared and the main interface shown, and no later run of the
    effect replaces the instance. Or a non-empty error is stored and the
    failure screen shows it, no instance is stored, and the effect may run
    again. Or the SDK threw null or undefined: the catch block throws a
    TypeError on reading its message before it resets the ref, so no error
    and no instance are stored, the main interface is shown without an
    instance, and no later run of the effect creates one. Either way the
    page does not stay on the initialising screen. *)
Theorem X17_initialisation_succeeds_or_shows_its_error env st a wallet :
  isConnected env = true ->
  address env = Some a ->
  walletClient env = Some wallet ->
  fhevmInstance st = None ->
  isInitializingRef st = false ->
  let st' := initEffect env st in
  isInitializing st' = false /\
  ((exists i,
      createFhevm env wallet = Ok i /\
      st' = mkInitState (Some i) false None true /\
      screen env st' = MainInterface /\
      forall env', initEffect env' st' = st')
   \/
   (exists e m,
      createFhevm env wallet = Throw (JS.ErrorValue e) /\
      m <> "" /\
      initError st' = Some m /\
      fhevmInstance st' = None /\
      isInitializingRef st' = false /\
      screen env st' = InitializationFailed m)
   \/
   (exists n,
      createFhevm env wallet = Throw (JS.ThrowNullish n) /\
      st' = mkInitState None false None true /\
      screen env st' = MainInterface /\
      forall env', initEffect env' st' = st')).
Proof.
  intros Hc Ha Hw Hi Hr st'. subst st'. unfold initEffect.
  rewrite Hc, Ha, Hw, Hi, Hr.
  destruct (createFhevm env wallet) as [i|[n|e]].
  - split; [reflexivity|]. left. exists i. split; [reflexivity|].
    split; [reflexivity|]. unfold screen. rewrite Hc. simpl.
    split; [reflexivity|]. intros env'. unfold initEffect. simpl.
    destruct (isConnected env'), (address env'), (walletClient env');
      reflexivity.
  - split; [reflexivity|]. right. right. exists n. split; [reflexivity|].
    split; [reflexivity|]. unfold screen. rewrite Hc. simpl.
    split; [reflexivity|]. intros env'. unfold initEffect. simpl.
    destruct (isConnected env'), (address env'), (walletClient env');
      reflexivity.
  - split; [reflexivity|]. right. left.
    exists e, (JS.or_else e "Failed to initialize FHEVM").
    assert (Hm : JS.or_else e "Failed to initialize FHEVM" <> "")
      by (apply AuctionPageMore.or_else_nonempty; discriminate).
    split; [reflexivity|].
    split; [exact Hm|]. unfold screen. rewrite Hc. simpl.
    repeat split; auto.
    destruct (JS.or_else e "Failed to initialize FHEVM"); [contradiction|].
    reflexivity.
Qed.

(** X18: the effect never fails for want of a provider: with the relayer
    SDK loaded and initialised it creates the instance with [FHEVM_CONFIG]
    on the injected provider when there is one and on the wallet client
    otherwise, and its outcome is that of [createInstance]. *)
Theorem X18_instance_is_created_on_provider_or_wallet env wallet :
  relayerSDK env = true ->
  initSDK env = Ok tt ->
  createFhevm env wallet
  = createInstance env FHEVM_CONFIG (default wallet (getWalletProvider env)).
Proof.
  intros Hsdk Hinit. unfold createFhevm. rewrite Hsdk, Hinit. simpl.
  destruct (getWalletProvider env); reflexivity.
Qed.

End PageInitFacts.

(** ** The properties at the sessions *)
Module SessionFacts.
Import JS AuctionPage AuctionPageFacts PageReadings Scenario Sessions.
Local Open Scope list_scope.

(** The bound of X11 is reached when every attempt meets an HTTP 500. *)
Example always500_waits_a_minute :
  timeout_total (events_since ready500
                   (handleDecryptResult env500 0 ready500).2) = 60000.
Proof. vm_compute. reflexivity. Qed.

(** X1 for the first bidder when the second one bids *)
Lemma X1_witness :
  SecretAuction.bidResults afterOtherBid !! 2%N
    = SecretAuction.bidResults afterFirstBid !! 2%N /\
  SecretAuction.hasBid_at afterOtherBid 2
    = SecretAuction.hasBid_at afterFirstBid 2 /\
  SecretAuction.bidTimestamp_at afterOtherBid 2
    = SecretAuction.bidTimestamp_at afterFirstBid 2 /\
  SecretAuction.reservePrice afterOtherBid
    = SecretAuction.reservePrice afterFirstBid.
Proof.
  apply (SecretAuctionMore.X1_submitBid_leaves_other_bidders_alone
           (F := FHE.cleartext) 1 afterFirstBid afterOtherBid otherBidder
           2000 [] 2%N).
  - reflexivity.
  - discriminate.
Defined.

(** X2 from the first bid to the second bidder's *)
Lemma X2_witness :
  (SecretAuction.hasBid_at afterFirstBid 2 = true ->
   SecretAuction.hasBid_at afterOtherBid 2 = true) /\
  SecretAuction.acl afterFirstBid ⊆ SecretAuction.acl afterOtherBid /\
  SecretAuction.emitted afterFirstBid
    `prefix_of` SecretAuction.emitted afterOtherBid /\
  SecretAuction.reservePrice afterOtherBid
    = SecretAuction.reservePrice afterFirstBid.
Proof.
  apply (SecretAuctionMore.X2_bids_grants_and_events_persist
           (F := FHE.cleartext) 1 afterFirstBid afterOtherBid 2%N).
  apply (SecretAuctionHistory.evolves_submitBid 1 afterFirstBid afterFirstBid
           otherBidder 2000 [] afterOtherBid).
  - apply SecretAuctionHistory.evolves_refl.
  - reflexivity.
Defined.

(** X3 for the first bidder, before and after the second one's bid *)
Lemma X3_witness :
  SecretAuction.execute
    (SecretAuction.getBidTimestamp (SecretAuction.sender bidder)) afterFirstBid
    = (inr (SecretAuction.timestamp bidder), afterFirstBid) /\
  SecretAuction.execute
    (SecretAuction.hasUserBid (SecretAuction.sender bidder)) afterFirstBid
    = (inr true, afterFirstBid) /\
  SecretAuction.execute
    (SecretAuction.getBidTimestamp (SecretAuction.sender bidder)) afterOtherBid
    = (inr (SecretAuction.timestamp bidder), afterOtherBid) /\
  SecretAuction.execute
    (SecretAuction.hasUserBid (SecretAuction.sender bidder)) afterOtherBid
    = (inr true, afterOtherBid).
Proof.
  apply (SecretAuctionMore.X3_timestamp_of_the_latest_bid
           (F := FHE.cleartext) 1 deployed afterFirstBid afterOtherBid
           bidder 500 [] otherBidder 2000 []).
  - reflexivity.
  - reflexivity.
  - discriminate.
Defined.

Lemma afterOtherBid_reachable :
  SecretAuction.reachable (F := FHE.cleartext) 1 afterOtherBid.
Proof.
  apply (SecretAuction.reach_submitBid 1 afterFirstBid otherBidder 2000 []).
  - apply (SecretAuction.reach_submitBid 1 deployed bidder 500 []).
    + apply SecretAuction.reach_constructor.
    + reflexivity.
  - reflexivity.
Defined.

(** X4 for the first bidder after the second one's bid *)
Lemma X4_witness :
  exists handle r,
    SecretAuction.execute (SecretAuction.getMyResult bidder) afterOtherBid
      = (inr handle, afterOtherBid) /\
    SecretAuction.userDecrypt 1 afterOtherBid (SecretAuction.sender bidder)
                              handle = Some r /\
    (r = 0 \/ r = 1).
Proof.
  apply (SecretAuctionMore.X4_every_bidder_can_decrypt_its_result
           (L := FHEFacts.cleartext_lawful) 1 afterOtherBid bidder).
  - exact afterOtherBid_reachable.
  - reflexivity.
Defined.

(** X5 for the first bidder after two bids *)
Lemma X5_witness :
  SecretAuction.userDecrypt 1 afterOtherBid 2
    (FHE.toBytes32 (SecretAuction.reservePrice afterOtherBid)) = None.
Proof.
  apply (SecretAuctionMore.X5_reserve_price_is_never_decryptable
           (L := FHEFacts.cleartext_lawful) 1 afterOtherBid 2%N).
  - exact afterOtherBid_reachable.
  - discriminate.
Defined.

(** X20 for the first bidder after two bids *)
Lemma X20_witness :
  last (SecretAuctionHistory.bid_times 2 (SecretAuction.emitted afterOtherBid))
  = if SecretAuction.hasBid_at afterOtherBid 2
    then Some (SecretAuction.bidTimestamp_at afterOtherBid 2)
    else None.
Proof.
  apply (SecretAuctionMore.X20_stored_timestamp_is_the_latest_event
           (F := FHE.cleartext) 1 afterOtherBid 2%N).
  exact afterOtherBid_reachable.
Defined.

(** X6 at a click on submit with 1500 typed *)
Lemma X6_witness :
  let w' := step env500 ClickSubmit typed1500 in
  ((handleSubmitBid env500 typed1500).1 = Ok tt /\
   page w' =
     setCountdown 10
       (setBidAmount ""
          (setHasBidSubmitted true (setError None (page typed1500)))) /\
   timers w' = S (timers typed1500) /\
   bidFormVisible (page w') = false /\
   countdownVisible (page w') = true)
  \/
  ((handleSubmitBid env500 typed1500).1 = Ok tt /\
   exists m,
     m <> "" /\
     page w' = setError (Some m) (page typed1500) /\
     timers w' = timers typed1500 /\
     submitEnabled (page w') = true /\
     errorVisible (page w') = true)
  \/
  (exists n,
     last_call_threw env500 w' n /\
     (handleSubmitBid env500 typed1500).1
       = Throw (Error (typeErrorMessage env500 n)) /\
     page w' = setError None (page typed1500) /\
     timers w' = timers typed1500 /\
     submitEnabled (page w') = true /\
     errorVisible (page w') = false).
Proof.
  apply (AuctionPageMore.X6_submit_click_accepts_or_reports env500 typed1500).
  reflexivity.
Defined.

(** The third way of X6 is taken when the confirmation of the transaction
    rejects with undefined: the bid is on the ledger, the page shows the
    form again with no error and no countdown. *)
Example undefined_rejection_of_a_submit_is_silent :
  let w' := step envSilent ClickSubmit typed1500 in
  (handleSubmitBid envSilent typed1500).1
    = Throw (Error "Cannot read properties of undefined (reading 'message')") /\
  ledger_submits (log w') = [(4096%N, [7%N])] /\
  page w' = page typed1500 /\
  timers w' = 0%nat.
Proof. vm_compute. repeat split; reflexivity. Qed.


(** X9 at a click on decrypt with a relayer that answers 1 *)
Lemma X9_witness :
  let w' := step envWon ClickDecrypt ready500 in
  timers w' = timers ready500 /\
  ((exists v l req,
      (handleDecryptResult envWon 0 ready500).1 = Ok tt /\
      log w' = l ++ [EvUserDecrypt req] /\
      userDecrypt envWon (length l) req = Ok v /\
      page w' = setCanDecrypt false
                  (setResult (Some v) (setError None (page ready500))) /\
      shownOutcome (page w') = Some (if is_number_one v then Won else Lost) /\
      decryptVisible (page w') = false /\
      tryAgainVisible (page w') = true)
   \/
   (exists m,
      (handleDecryptResult envWon 0 ready500).1 = Ok tt /\
      m <> "" /\
      page w' = setError (Some m) (page ready500) /\
      decryptEnabled (page w') = true /\
      errorVisible (page w') = true /\
      shownOutcome (page w') = None)
   \/
   (exists n,
      last_call_threw envWon w' n /\
      (handleDecryptResult envWon 0 ready500).1
        = Throw (Error (typeErrorMessage envWon n)) /\
      page w' = setError None (page ready500) /\
      decryptEnabled (page w') = true /\
      errorVisible (page w') = false /\
      shownOutcome (page w') = None)).
Proof.
  apply (AuctionPageMore.X9_decrypt_click_resolves_or_reports envWon ready500).
  reflexivity.
Defined.

(** The third way of X9 is taken when the relayer rejects with null after
    two transient failures: the retry message is cleared and nothing is
    shown. *)
Example null_rejection_of_a_decryption_is_silent :
  let w' := step envNull ClickDecrypt ready500 in
  (handleDecryptResult envNull 0 ready500).1
    = Throw (Error "Cannot read properties of null (reading 'message')") /\
  decrypt_calls (events_since ready500 w') = 3%nat /\
  page w' = page ready500.
Proof. vm_compute. repeat split; reflexivity. Qed.

(** X10 at the attempt of a user who refuses to sign *)
Lemma X10_witness :
  handleDecryptResult envRejected 0 readyRejected
    = (Ok tt, giveUp (Some "User rejected") rejectedAttempt) /\
  timeout_total
    (events_since readyRejected
       (giveUp (Some "User rejected") rejectedAttempt)) = 0 /\
  signer_calls
    (events_since readyRejected
       (giveUp (Some "User rejected") rejectedAttempt)) = 1%nat /\
  error (page (giveUp (Some "User rejected") rejectedAttempt))
    = Some (or_else (Some "User rejected") "Failed to decrypt result") /\
  result (page (giveUp (Some "User rejected") rejectedAttempt))
    = result (page readyRejected) /\
  canDecrypt (page (giveUp (Some "User rejected") rejectedAttempt))
    = canDecrypt (page readyRejected).
Proof.
  apply (AuctionPageMore.X10_other_errors_are_not_retried envRejected 0%nat
           readyRejected user (Some "User rejected") rejectedAttempt).
  - reflexivity.
  - reflexivity.
  - vm_compute. reflexivity.
  - reflexivity.
Defined.


(** X13 at the first attempt of a session *)
Lemma X13_witness :
  request_is_authorized env500 user (attemptStart ready500)
    (events_since (attemptStart ready500)
       (decryptAttempt env500 user (attemptStart ready500)).2)
    firstRequest.
Proof.
  apply (AuctionPageMore.X13_decrypt_request_matches_signed_authorization
           env500 user (attemptStart ready500) firstRequest).
  vm_compute. repeat constructor.
Defined.

(** X14 at a demo-mode submit of 888 followed by an HTTP 500 and then a
    timeout *)
Lemma X14_witness :
  let s1 := (DemoFlow.handleSubmit user "888" (DemoFlow.Ok tt) (DemoFlow.Ok tt) guideDemo).2 in
  let s2 := DemoFlow.handleDecrypt user (DemoFlow.Throw (Some "HTTP 500")) false s1 in
  let s3 := DemoFlow.handleDecrypt user (DemoFlow.Ok 1) true s2 in
  DemoFlow.canDecrypt s1 = true /\
  DemoFlow.result s2 = Some (if bool_decide ("888" = "888") then 1 else 0) /\
  DemoFlow.localStorage s2
    = delete (DemoMode.lastGuess_key user) (DemoFlow.localStorage guideDemo) /\
  DemoFlow.error s2 = DemoFlow.error guideDemo /\
  DemoFlow.isDecrypting s2 = false /\
  DemoFlow.delays s2 = DemoFlow.delays guideDemo ++ [2000] /\
  DemoFlow.result s3 = Some 0.
Proof.
  apply (DemoFlowFacts.X14_demo_fallback_uses_the_saved_plaintext_once
           user "888" (DemoFlow.Throw (Some "HTTP 500")) false (DemoFlow.Ok 1) true guideDemo).
  - reflexivity.
  - reflexivity.
  - reflexivity.
Defined.


(** X16 for two users of one browser *)
Lemma X16_witness :
  DemoFlow.localStorage
    (DemoFlow.handleSubmit user "888" (DemoFlow.Ok tt) (DemoFlow.Ok tt) guideDemo).2
    !! DemoMode.lastGuess_key "0xB0B"
    = DemoFlow.localStorage guideDemo !! DemoMode.lastGuess_key "0xB0B" /\
  DemoFlow.localStorage
    (DemoFlow.handleDecrypt user (DemoFlow.Ok 1) true guideDemo)
    !! DemoMode.lastGuess_key "0xB0B"
    = DemoFlow.localStorage guideDemo !! DemoMode.lastGuess_key "0xB0B".
Proof.
  apply (DemoFlowFacts.X16_saved_plaintexts_are_per_user
           user "0xB0B" "888" (DemoFlow.Ok tt) (DemoFlow.Ok tt) (DemoFlow.Ok 1) true guideDemo).
  discriminate.
Defined.

(** X17 at the first run of the effect *)
Lemma X17_witness :
  let st' := PageInit.initEffect initEnv PageInit.initialInit in
  PageInit.isInitializing st' = false /\
  ((exists i,
      PageInit.createFhevm initEnv 7%N = Ok i /\
      st' = PageInit.mkInitState (Some i) false None true /\
      PageInit.screen initEnv st' = PageInit.MainInterface /\
      forall env', PageInit.initEffect env' st' = st')
   \/
   (exists e m,
      PageInit.createFhevm initEnv 7%N = Throw (ErrorValue e) /\
      m <> "" /\
      PageInit.initError st' = Some m /\
      PageInit.fhevmInstance st' = None /\
      PageInit.isInitializingRef st' = false /\
      PageInit.screen initEnv st' = PageInit.InitializationFailed m)
   \/
   (exists n,
      PageInit.createFhevm initEnv 7%N = Throw (ThrowNullish n) /\
      st' = PageInit.mkInitState None false None true /\
      PageInit.screen initEnv st' = PageInit.MainInterface /\
      forall env', PageInit.initEffect env' st' = st')).
Proof.
  apply (PageInitFacts.X17_initialisation_succeeds_or_shows_its_error
           initEnv PageInit.initialInit user 7%N).
  - reflexivity.
  - reflexivity.
  - reflexivity.
  - reflexivity.
  - reflexivity.
Defined.

(** The third way of X17 is taken when [initSDK] rejects with null. *)
Example null_rejection_of_the_initialisation_is_silent :
  PageInit.initEffect initEnvNull PageInit.initialInit
    = PageInit.mkInitState None false None true /\
  PageInit.screen initEnvNull
    (PageInit.initEffect initEnvNull PageInit.initialInit)
    = PageInit.MainInterface.
Proof. split; reflexivity. Qed.

(** X18 without an injected provider: the wallet client is used *)
Lemma X18_witness :
  PageInit.createFhevm initEnv 7%N
  = PageInit.createInstance initEnv PageInit.FHEVM_CONFIG
      (default 7%N (PageInit.getWalletProvider initEnv)).
Proof.
  apply (PageInitFacts.X18_instance_is_created_on_provider_or_wallet
           initEnv 7%N).
  - reflexivity.
  - reflexivity.
Defined.

End SessionFacts.
